(** * Auth-Starter: device confidence, two-factor resolution, validation
      schemas and the e-mail route handlers

    A shallow embedding of
    - [src/utils/auth.ts] (module [Auth]),
    - [src/utils/validation/auth-validation.ts] (module [AuthValidation]),
    - the forgot-password and sign-up route handlers (module [Routes]),
    followed by the properties proved about them. *)

From Stdlib Require Import ZArith List String Ascii Bool Lia.
From Stdlib Require DecimalString.
Import ListNotations.

Local Open Scope string_scope.
Local Open Scope Z_scope.

(* ================================================================== *)
(** * JavaScript values and built-ins used by the sources *)
(* ================================================================== *)

Module Js.

(** A JavaScript number as the sources use it: small integers, and the
    [-Infinity] that [Math.max()] gives on an empty argument list. *)
Inductive number : Type :=
| NegInfinity
| Num (z : Z).

(** [Math.max(...xs)]. *)
Definition Math_max (xs : list Z) : number :=
  match xs with
  | [] => NegInfinity
  | x :: rest => Num (fold_left Z.max rest x)
  end.

(** A nullable string field ([string | null]); [None] is the absent value. *)
Definition nullable := option string.

(** [a === b] on nullable strings. *)
Definition strict_eq (a b : nullable) : bool :=
  match a, b with
  | None, None => true
  | Some x, Some y => String.eqb x y
  | _, _ => false
  end.

(** Truthiness of a nullable string: present and not the empty string. *)
Definition truthy (a : nullable) : bool :=
  match a with
  | None => false
  | Some s => negb (String.eqb s "")
  end.

(** A string attribute that may be missing: [undefined], [null] or a
    string. *)
Inductive attribute : Type :=
| Undefined
| Null
| Str (s : string).

(** [a === b] on attributes: [null] and [undefined] are different values. *)
Definition strict_equal (a b : attribute) : bool :=
  match a, b with
  | Undefined, Undefined => true
  | Null, Null => true
  | Str x, Str y => String.eqb x y
  | _, _ => false
  end.

(** Truthiness of an attribute: a string that is not empty. *)
Definition is_truthy (a : attribute) : bool :=
  match a with
  | Str s => negb (String.eqb s "")
  | Undefined | Null => false
  end.

(** [s.split(sep)] for a one-character separator. *)
Fixpoint split (sep : ascii) (s : string) : list string :=
  match s with
  | EmptyString => [EmptyString]
  | String c rest =>
      if Ascii.eqb c sep then EmptyString :: split sep rest
      else match split sep rest with
           | [] => [String c EmptyString]
           | w :: ws => String c w :: ws
           end
  end.

(** [xs.slice(0, n)]. *)
Definition slice0 {A} (n : nat) (xs : list A) : list A := firstn n xs.

(** [xs.join(sep)]. *)
Fixpoint join (sep : string) (xs : list string) : string :=
  match xs with
  | [] => ""
  | [x] => x
  | x :: rest => x ++ sep ++ join sep rest
  end.

(** [xs[i] === ys[j]] where an index out of range reads [undefined]. *)
Definition elem_strict_eq (a b : option string) : bool :=
  match a, b with
  | None, None => true
  | Some x, Some y => String.eqb x y
  | _, _ => false
  end.

(** [xs.find(p)]. *)
Definition find {A} (p : A -> bool) (xs : list A) : option A := List.find p xs.

(** [s.includes(c)] for a single character. *)
Fixpoint includes (c : ascii) (s : string) : bool :=
  match s with
  | EmptyString => false
  | String d rest => Ascii.eqb d c || includes c rest
  end.

(** [[...s].every(p)]. *)
Fixpoint every (p : ascii -> bool) (s : string) : bool :=
  match s with
  | EmptyString => true
  | String c rest => p c && every p rest
  end.

(** [s.length] (one code unit per character). *)
Definition length (s : string) : Z := Z.of_nat (String.length s).

End Js.

(* ================================================================== *)
(** * Effects: console output, provider calls, exceptions *)
(* ================================================================== *)

Module Eff.

Inductive event : Type :=
| ConsoleError (label : string)
| RateLimit (ip : string)
| Provider (call : string).

(** What an awaited call or a function body ends with. *)
Inductive outcome (A : Type) : Type :=
| Returned (a : A)
| Thrown (message : string).
Arguments Returned {A} a.
Arguments Thrown {A} message.

(** A computation: the events it emitted, in order, and how it ended. *)
Definition t (A : Type) : Type := (list event * outcome A)%type.

Definition ret {A} (a : A) : t A := ([], Returned a).
Definition throw {A} (message : string) : t A := ([], Thrown message).
Definition emit (e : event) : t unit := ([e], Returned tt).

Definition bind {A B} (m : t A) (k : A -> t B) : t B :=
  match m with
  | (tr, Returned a) => let (tr', r) := k a in ((tr ++ tr')%list, r)
  | (tr, Thrown e) => (tr, Thrown e)
  end.

(** [try { m } catch (error) { h error }]. *)
Definition try_catch {A} (m : t A) (h : string -> t A) : t A :=
  match m with
  | (tr, Thrown e) => let (tr', r) := h e in ((tr ++ tr')%list, r)
  | (tr, Returned a) => (tr, Returned a)
  end.

(** [await call()] of an external service: records the call, then returns or
    throws what the service answered. *)
Definition await {A} (call : string) (answer : outcome A) : t A :=
  bind (emit (Provider call)) (fun _ => ([], answer)).

Definition trace {A} (m : t A) : list event := fst m.
Definition result {A} (m : t A) : outcome A := snd m.

End Eff.

Notation "x <- m ;; k" := (Eff.bind m (fun x => k))
  (at level 61, m at next level, right associativity).
Notation "m ;;; k" := (Eff.bind m (fun _ => k))
  (at level 61, right associativity).

(* ================================================================== *)
(** * src/utils/auth.ts *)
(* ================================================================== *)

Module Auth.

Import Js.

(** Modelled from the spec: [TDeviceInfo] and [TDeviceSession] are declared
    in [@/types/auth], which is not among the sources. Each of the four
    attributes is a string, [null] or [undefined]. *)
Record TDeviceInfo : Type := {
  device_name : attribute;
  browser : attribute;
  os : attribute;
  ip_address : attribute
}.

Record TDeviceSession : Type := {
  session_id : string;
  device : TDeviceInfo
}.

(** ** calculateDeviceConfidence *)

(** Device name match (30 points). *)
Definition deviceNameStep (stored current : TDeviceInfo) (score : Z) : Z :=
  if strict_equal (device_name stored) (device_name current)
  then score + 30 else score.

(** Browser match (20 points). *)
Definition browserStep (stored current : TDeviceInfo) (score : Z) : Z :=
  if strict_equal (browser stored) (browser current)
  then score + 20 else score.

(** OS match - base name only (20 points). *)
Definition osStep (stored current : TDeviceInfo) (score : Z) : Z :=
  match os stored, os current with
  | Str stored_os, Str current_os =>
      if is_truthy (Str stored_os) && is_truthy (Str current_os) then
        let storedBase := nth_error (split " " stored_os) 0 in
        let currentBase := nth_error (split " " current_os) 0 in
        if elem_strict_eq storedBase currentBase then score + 20 else score
      else score
  | _, _ => score
  end.

(** IP range match (15 points). *)
Definition ipStep (stored current : TDeviceInfo) (score : Z) : Z :=
  match ip_address stored, ip_address current with
  | Str stored_ip, Str current_ip =>
      if is_truthy (Str stored_ip) && is_truthy (Str current_ip) then
        let storedIP := join "." (slice0 3 (split "." stored_ip)) in
        let currentIP := join "." (slice0 3 (split "." current_ip)) in
        if String.eqb storedIP currentIP then score + 15 else score
      else score
  | _, _ => score
  end.

(** The body of the [map] callback. *)
Definition sessionScore (current : TDeviceInfo) (session : TDeviceSession) : Z :=
  let score := 0 in
  let stored := device session in
  let score := deviceNameStep stored current score in
  let score := browserStep stored current score in
  let score := osStep stored current score in
  let score := ipStep stored current score in
  score.

Definition calculateDeviceConfidence
    (storedSessions : option (list TDeviceSession)) (current : TDeviceInfo)
  : number :=
  match storedSessions with
  | None => Num 100
  | Some [] => Num 100
  | Some sessions =>
      let scores := map (sessionScore current) sessions in
      Math_max scores
  end.

Inductive level : Type := high | medium | low.

Definition getConfidenceLevel (score : Z) : level :=
  if score >=? 70 then high
  else if score >=? 40 then medium
  else low.

(** ** Two-factor requirement *)

(** Modelled from the spec: [AUTH_CONFIG] is defined in [@/config/auth], which
    is not among the sources; it is passed in as a value of the shape
    [{ twoFactorAuth: { enabled, methods: [{type, enabled}] },
       api_rate_limit: { enabled } }]. *)
Record TConfigMethod : Type := {
  cm_type : string;
  cm_enabled : bool
}.

Record TTwoFactorAuthConfig : Type := {
  tfa_enabled : bool;
  tfa_methods : list TConfigMethod
}.

Record TAuthConfig : Type := {
  twoFactorAuth : TTwoFactorAuthConfig;
  api_rate_limit_enabled : bool
}.

(** A factor as the provider lists it. *)
Record Factor : Type := {
  id : string;
  status : string
}.

Record FactorsData : Type := {
  totp : option (list Factor);
  phone : option (list Factor)
}.

Record AuthError : Type := {
  message : string
}.

(** The [{ data, error }] pair the provider's calls resolve to. *)
Record Response (D : Type) : Type := {
  data : option D;
  error : option AuthError
}.
Arguments data {D} r.
Arguments error {D} r.

(** The part of the Supabase client [auth.ts] calls. *)
Record SupabaseClient : Type := {
  mfa_listFactors : Eff.outcome (Response FactorsData)
}.

(** [{ type: TTwoFactorMethod; factorId: string }]; the tag is the string
    the code compares with [===]. *)
Record TMethod : Type := {
  method_type : string;
  method_factorId : string
}.

Record TwoFactorRequirement : Type := {
  requiresTwoFactor : bool;
  factorId : option string;
  availableMethods : option (list TMethod)
}.

Definition notRequired : TwoFactorRequirement :=
  {| requiresTwoFactor := false; factorId := None; availableMethods := None |}.

Definition isVerified (factor : Factor) : bool :=
  String.eqb (status factor) "verified".

(** [getMostTrustedTwoFactorMethod(methods?)]. *)
Definition getMostTrustedTwoFactorMethod (methods : option (list TMethod))
  : option TMethod :=
  match methods with
  | None => None
  | Some [] => None
  | Some ms =>
      match find (fun m => String.eqb (method_type m) "authenticator") ms with
      | Some authenticator => Some authenticator
      | None =>
          match find (fun m => String.eqb (method_type m) "sms") ms with
          | Some sms => Some sms
          | None => None
          end
      end
  end.

(** The [push] of the first verified factor of one kind, if there is one. *)
Definition pushFirstVerified (kind : string) (factors : option (list Factor))
    (availableMethods : list TMethod) : list TMethod :=
  match factors with
  | None => availableMethods
  | Some fs =>
      match filter isVerified fs with
      | [] => availableMethods
      | first :: _ =>
          (availableMethods
             ++ [{| method_type := kind; method_factorId := id first |}])%list
      end
  end.

(** The methods collected from the provider's answer. *)
Definition collectMethods (d : option FactorsData) : list TMethod :=
  let availableMethods := [] in
  let availableMethods :=
    pushFirstVerified "authenticator"
      (match d with Some d => totp d | None => None end) availableMethods in
  let availableMethods :=
    pushFirstVerified "sms"
      (match d with Some d => phone d | None => None end) availableMethods in
  availableMethods.

Definition checkTwoFactorRequirements (AUTH_CONFIG : TAuthConfig)
    (supabase : SupabaseClient) : Eff.t TwoFactorRequirement :=
  if negb (tfa_enabled (twoFactorAuth AUTH_CONFIG)) then Eff.ret notRequired
  else
    let enabledMethods :=
      filter cm_enabled (tfa_methods (twoFactorAuth AUTH_CONFIG)) in
    if (List.length enabledMethods =? 0)%nat then Eff.ret notRequired
    else
      r <- Eff.await "auth.mfa.listFactors" (mfa_listFactors supabase) ;;
      match error r with
      | Some factorsError =>
          Eff.emit (Eff.ConsoleError "Error getting MFA factors:") ;;;
          Eff.throw "Failed to check 2FA status"
      | None =>
          let availableMethods := collectMethods (data r) in
          if (0 <? List.length availableMethods)%nat then
            match getMostTrustedTwoFactorMethod (Some availableMethods) with
            | None => Eff.throw "No default 2FA method found"
            | Some defaultMethod =>
                Eff.ret {| requiresTwoFactor := true;
                           factorId := Some (method_factorId defaultMethod);
                           availableMethods := Some availableMethods |}
            end
          else Eff.ret notRequired
      end.

End Auth.

(* Sample fingerprints used by the examples below. *)
Module Samples.

Import Js Auth.

Definition laptop : TDeviceInfo :=
  {| device_name := Str "MacBook Pro"; browser := Str "Chrome";
     os := Str "macOS 14.1"; ip_address := Str "192.168.1.20" |}.

Definition laptop_later : TDeviceInfo :=
  {| device_name := Str "MacBook Pro"; browser := Str "Chrome";
     os := Str "macOS 15.0"; ip_address := Str "192.168.1.77" |}.

Definition phone_elsewhere : TDeviceInfo :=
  {| device_name := Str "Pixel 8"; browser := Str "Firefox";
     os := Str "Android 14"; ip_address := Str "10.4.0.9" |}.

(** A stored row without any attribute ([null] throughout), and a login
    whose attributes could not be read ([undefined] throughout). *)
Definition bare : TDeviceInfo :=
  {| device_name := Null; browser := Null; os := Null; ip_address := Null |}.

Definition unread : TDeviceInfo :=
  {| device_name := Undefined; browser := Undefined; os := Undefined;
     ip_address := Undefined |}.

(** Two unrelated devices that both report an empty OS string. *)
Definition kiosk : TDeviceInfo :=
  {| device_name := Str "Kiosk"; browser := Str "Edge";
     os := Str ""; ip_address := Null |}.

Definition console : TDeviceInfo :=
  {| device_name := Str "Console"; browser := Str "Opera";
     os := Str ""; ip_address := Null |}.

Definition seen (d : TDeviceInfo) : TDeviceSession :=
  {| session_id := "s"; device := d |}.

End Samples.


(* ================================================================== *)
(** * Regular expressions, as far as the schemas use them *)
(* ================================================================== *)

Module Regex.

(** The body of an anchored pattern [/^ ... $/]. *)
Inductive re : Type :=
| Void
| Eps
| Class (p : ascii -> bool)
| Cat (a b : re)
| Alt (a b : re)
| Star (a : re).

Fixpoint nullable (r : re) : bool :=
  match r with
  | Void => false
  | Eps => true
  | Class _ => false
  | Cat a b => nullable a && nullable b
  | Alt a b => nullable a || nullable b
  | Star _ => true
  end.

(** What is left of [r] once the character [c] has been read. *)
Fixpoint deriv (c : ascii) (r : re) : re :=
  match r with
  | Void => Void
  | Eps => Void
  | Class p => if p c then Eps else Void
  | Cat a b =>
      if nullable a then Alt (Cat (deriv c a) b) (deriv c b)
      else Cat (deriv c a) b
  | Alt a b => Alt (deriv c a) (deriv c b)
  | Star a => Cat (deriv c a) (Star a)
  end.

(** [/^r$/.test(s)]: without the [m] flag [^] and [$] are the two ends of
    the input, so the whole of [s] has to match. *)
Fixpoint test (r : re) (s : string) : bool :=
  match s with
  | EmptyString => nullable r
  | String c rest => test (deriv c r) rest
  end.

(** The words of [r], declaratively. *)
Inductive Matches : re -> string -> Prop :=
| MEps : Matches Eps ""
| MClass p c : p c = true -> Matches (Class p) (String c "")
| MCat a b s1 s2 :
    Matches a s1 -> Matches b s2 -> Matches (Cat a b) (s1 ++ s2)
| MAltL a b s : Matches a s -> Matches (Alt a b) s
| MAltR a b s : Matches b s -> Matches (Alt a b) s
| MStar0 a : Matches (Star a) ""
| MStarS a s1 s2 :
    Matches a s1 -> Matches (Star a) s2 -> Matches (Star a) (s1 ++ s2).

(** [r{n}]. *)
Fixpoint times (n : nat) (r : re) : re :=
  match n with
  | O => Eps
  | S k => Cat r (times k r)
  end.

(** [r{0,n}]. *)
Fixpoint upto (n : nat) (r : re) : re :=
  match n with
  | O => Eps
  | S k => Alt Eps (Cat r (upto k r))
  end.

(** [r{lo,hi}]. *)
Definition between (lo hi : nat) (r : re) : re :=
  Cat (times lo r) (upto (hi - lo) r).

(** [r+]. *)
Definition plus (r : re) : re := Cat r (Star r).

Definition lit (c : ascii) : re := Class (Ascii.eqb c).

(** [[lo-hi]]. *)
Definition range (lo hi : ascii) : re :=
  Class (fun c => (nat_of_ascii lo <=? nat_of_ascii c)%nat
                  && (nat_of_ascii c <=? nat_of_ascii hi)%nat).

(** [\d]. *)
Definition digit : re := range "0" "9".

End Regex.

(* ================================================================== *)
(** * src/utils/validation/auth-validation.ts *)
(* ================================================================== *)

Module AuthValidation.

(** A value read from a parsed JSON body, as far as a string schema tells
    values apart. *)
Inductive json : Type :=
| JUndefined
| JString (s : string)
| JOther (typeName : string).

(** One check of a [z.string()] schema, with its message. *)
Inductive check : Type :=
| min (n : Z) (msg : string)
| max (n : Z) (msg : string)
| regex (r : Regex.re) (msg : string)
| email (shape : string -> bool) (msg : string).

Definition ZodString := list check.

Inductive SafeParseReturn (A : Type) : Type :=
| success (data : A)
| failure (issues : list string).
Arguments success {A} data.
Arguments failure {A} issues.

Definition is_success {A} (r : SafeParseReturn A) : bool :=
  match r with success _ => true | failure _ => false end.

(** [result.error.issues[0]?.message]. *)
Definition first_issue {A} (r : SafeParseReturn A) : option string :=
  match r with success _ => None | failure issues => hd_error issues end.

Section Zod.

(** The shape test behind zod's [.email()], internal to the library. *)
Variable zod_email : string -> bool.

Definition passes (c : check) (s : string) : bool :=
  match c with
  | min n _ => n <=? Js.length s
  | max n _ => Js.length s <=? n
  | regex r _ => Regex.test r s
  | email shape _ => shape s
  end.

Definition msg_of (c : check) : string :=
  match c with
  | min _ m | max _ m | regex _ m | email _ m => m
  end.

(** The issues of a string schema on a value: a type issue for a value that
    is no string, otherwise one issue per failed check, in schema order. *)
Definition issues_of (schema : ZodString) (v : json) : list string :=
  match v with
  | JUndefined => ["Required"]
  | JOther ty => ["Expected string, received " ++ ty]
  | JString s => map msg_of (filter (fun c => negb (passes c s)) schema)
  end.

Definition safeParse (schema : ZodString) (v : json) : SafeParseReturn json :=
  match issues_of schema v with
  | [] => success v
  | issues => failure issues
  end.

Definition emailSchema : ZodString :=
  [ min 1 "Email is required";
    max 255 "Email is too long";
    email zod_email "Invalid email format" ].

Definition passwordSchema : ZodString :=
  [ min 8 "Password must be at least 8 characters";
    max 72 "Password cannot exceed 72 characters" ].

Record Validation : Type := {
  isValid : bool;
  error : option string
}.

Definition validation_of {A} (result : SafeParseReturn A) : Validation :=
  {| isValid := is_success result;
     error := if negb (is_success result) then first_issue result else None |}.

Definition validatePassword (password : json) : Validation :=
  validation_of (safeParse passwordSchema password).

Definition validateEmail (email : json) : Validation :=
  validation_of (safeParse emailSchema email).

(** A parsed request body: a JSON object, of which the handlers read two
    fields, [null], or another JSON value. *)
Inductive body : Type :=
| BodyObject (email password : json)
| BodyNull
| BodyOther (typeName : string).

Record AuthSchema : Type := {
  as_email : json;
  as_password : json
}.

(** [authSchema.safeParse(data)]. *)
Definition authSchema_safeParse (data : body) : SafeParseReturn AuthSchema :=
  match data with
  | BodyObject e p =>
      match (issues_of emailSchema e ++ issues_of passwordSchema p)%list with
      | [] => success {| as_email := e; as_password := p |}
      | issues => failure issues
      end
  | BodyNull => failure ["Expected object, received null"]
  | BodyOther ty => failure ["Expected object, received " ++ ty]
  end.

Record FormData : Type := {
  fd_error : option string;
  fd_data : option AuthSchema
}.

Definition validateFormData (data : body) : FormData :=
  match authSchema_safeParse data with
  | failure issues =>
      let error := match hd_error issues with
                   | Some m => if String.eqb m "" then "Invalid input" else m
                   | None => "Invalid input"
                   end in
      {| fd_error := Some error; fd_data := None |}
  | success d => {| fd_error := None; fd_data := Some d |}
  end.

(** Phone number validation for SMS 2FA: [/^\+[1-9]\d{1,14}$/]. *)
Definition phonePattern : Regex.re :=
  Regex.Cat (Regex.lit "+")
    (Regex.Cat (Regex.range "1" "9") (Regex.between 1 14 Regex.digit)).

Definition phoneSchema : ZodString :=
  [ min 1 "Phone number is required";
    regex phonePattern
      "Phone number must be in E.164 format (e.g., +1234567890)" ].

Definition validatePhoneNumber (phone : json) : Validation :=
  validation_of (safeParse phoneSchema phone).

(** [/^\d+$/] of the two-factor code. *)
Definition codePattern : Regex.re := Regex.plus Regex.digit.

Definition codeSchema : ZodString :=
  [ min 6 "Code must be 6 digits";
    max 6 "Code must be 6 digits";
    regex codePattern "Code must contain only numbers" ].

Definition validateTwoFactorCode (code : json) : Validation :=
  validation_of (safeParse codeSchema code).

End Zod.

End AuthValidation.

(* ================================================================== *)
(** * The e-mail route handlers *)
(* ================================================================== *)

Module Routes.

Import AuthValidation.

Record NextResponse : Type := {
  json_error : option string;
  status : Z
}.

(** [NextResponse.json({ error }, { status })]. *)
Definition json_err (error : string) (status : Z) : NextResponse :=
  {| json_error := Some error; status := status |}.

(** [NextResponse.json({}, { status: 200 })]. *)
Definition json_ok : NextResponse :=
  {| json_error := None; status := 200 |}.

Record Request : Type := {
  x_forwarded_for : option string;
  json : Eff.outcome body;
  origin : string
}.

Record User : Type := {
  identities : option (list string)
}.

Record SignUpData : Type := {
  user : option User
}.

(** The part of the server-side Supabase client the two handlers call. *)
Record ServerClient : Type := {
  resetPasswordForEmail :
    AuthValidation.json -> string -> Eff.outcome (Auth.Response unit);
  signUp : AuthSchema -> Eff.outcome (Auth.Response SignUpData)
}.

(** [a || fallback] on an optional message. *)
Definition or_else (a : option string) (fallback : string) : string :=
  match a with
  | Some m => if String.eqb m "" then fallback else m
  | None => fallback
  end.

Section Handlers.

Variable zod_email : string -> bool.

(** Modelled from the spec: [authRateLimit] and [getClientIp] come from
    [@/utils/rate-limit] and [createClient] from [@/utils/supabase/server],
    which are not among the sources; [authRateLimit] is absent ([None]) or a
    limiter whose [limit(ip)] resolves to [{ success }]. *)
Variable authRateLimit : option (string -> Eff.outcome bool).
Variable getClientIp : Request -> string.
Variable createClient : Eff.outcome ServerClient.
Variable AUTH_CONFIG : Auth.TAuthConfig.

Definition limit (limiter : string -> Eff.outcome bool) (ip : string)
  : Eff.t bool :=
  Eff.emit (Eff.RateLimit ip) ;;; ([], limiter ip).

Definition tooManyRequests : NextResponse :=
  json_err "Too many requests. Please try again later." 429.

(** [const { email } = await request.json()]. *)
Definition destructure_email (b : body) : Eff.t AuthValidation.json :=
  match b with
  | BodyObject e _ => Eff.ret e
  | BodyNull => Eff.throw "TypeError: Cannot destructure property of null"
  | BodyOther _ => Eff.ret JUndefined
  end.

(** [POST] of the forgot-password route. *)
Definition forgotPassword_POST (request : Request) : Eff.t NextResponse :=
  Eff.try_catch
    (limited <-
       match authRateLimit with
       | Some limiter =>
           let ip := getClientIp request in
           success <- limit limiter ip ;;
           Eff.ret (negb success)
       | None => Eff.ret false
       end ;;
     if limited : bool then Eff.ret tooManyRequests
     else
       b <- ([], json request) ;;
       email <- destructure_email b ;;
       let validation := validateEmail zod_email email in
       if negb (isValid validation) then
         Eff.ret (json_err (or_else (error validation) "Invalid email") 400)
       else
         supabase <- Eff.await "createClient" createClient ;;
         r <- Eff.await "auth.resetPasswordForEmail"
                (resetPasswordForEmail supabase email
                   (origin request ++ "/auth/reset-password")) ;;
         match Auth.error r with
         | Some _ =>
             Eff.emit (Eff.ConsoleError "Failed to send reset password email:")
         | None => Eff.ret tt
         end ;;;
         Eff.ret json_ok)
    (fun error =>
       Eff.emit (Eff.ConsoleError "Error in forgot password:") ;;;
       Eff.ret (json_err "An unexpected error occurred" 500)).

(** [data?.user?.identities?.length === 0]. *)
Definition noIdentities (data : option SignUpData) : bool :=
  match data with
  | Some d =>
      match user d with
      | Some u =>
          match identities u with
          | Some ids => (List.length ids =? 0)%nat
          | None => false
          end
      | None => false
      end
  | None => false
  end.

(** [POST] of the sign-up route. *)
Definition signup_POST (request : Request) : Eff.t NextResponse :=
  Eff.try_catch
    (limited <-
       match authRateLimit with
       | Some limiter =>
           if Auth.api_rate_limit_enabled AUTH_CONFIG then
             let ip := match x_forwarded_for request with
                       | Some ip => ip
                       | None => "127.0.0.1"
                       end in
             success <- limit limiter ip ;;
             Eff.ret (negb success)
           else Eff.ret false
       | None => Eff.ret false
       end ;;
     if limited : bool then Eff.ret tooManyRequests
     else
       b <- ([], json request) ;;
       let validation := validateFormData zod_email b in
       let invalid :=
         Eff.ret (json_err (or_else (fd_error validation) "Invalid input") 400) in
       match fd_data validation with
       | None => invalid
       | Some validData =>
           if Js.truthy (fd_error validation) then invalid
           else
             supabase <- Eff.await "createClient" createClient ;;
             r <- Eff.await "auth.signUp" (signUp supabase validData) ;;
             if noIdentities (Auth.data r) then
               Eff.ret (json_err
                 "This email is already registered. Please try logging in instead."
                 400)
             else
               match Auth.error r with
               | Some authError =>
                   Eff.ret (json_err (Auth.message authError) 400)
               | None => Eff.ret json_ok
               end
       end)
    (fun error => Eff.ret (json_err "Internal server error" 500)).

End Handlers.

End Routes.

(* ================================================================== *)
(** * Reference definitions, in the words of the specification *)
(* ================================================================== *)

Module Reference.

Import Js Auth.

(** Exact, case-sensitive equality of two attribute values. *)
Definition same (a b : attribute) : bool :=
  match a, b with
  | Str x, Str y => if string_dec x y then true else false
  | Null, Null => true
  | Undefined, Undefined => true
  | _, _ => false
  end.

Definition present (a : attribute) : bool :=
  match a with Str _ => true | Null | Undefined => false end.

Definition present_nonempty (a : attribute) : bool :=
  match a with
  | Str EmptyString => false
  | Str (String _ _) => true
  | Null | Undefined => false
  end.

(** The substring before the first space (all of it when there is none). *)
Fixpoint before_first_space (s : string) : string :=
  match s with
  | EmptyString => EmptyString
  | String c rest =>
      if Ascii.eqb c " " then EmptyString
      else String c (before_first_space rest)
  end.

(** The first three dot-separated octets, as a list. *)
Definition first_three_octets (s : string) : list string :=
  firstn 3 (split "." s).

Definition value (a : attribute) : string :=
  match a with Str s => s | Null | Undefined => "" end.

Definition weight (w : Z) (matched : bool) : Z := if matched then w else 0.

Section Score.

(** When an OS attribute counts as there: the one point on which the claim
    and the code differ. *)
Variable os_there : attribute -> bool.

Definition session_score (current : TDeviceInfo) (session : TDeviceSession)
  : Z :=
  let stored := device session in
  weight 30 (same (device_name stored) (device_name current))
  + weight 20 (same (browser stored) (browser current))
  + weight 20
      (os_there (os stored) && os_there (os current)
       && String.eqb (before_first_space (value (os stored)))
                     (before_first_space (value (os current))))
  + weight 15
      (present_nonempty (ip_address stored)
       && present_nonempty (ip_address current)
       && if list_eq_dec string_dec
               (first_three_octets (value (ip_address stored)))
               (first_three_octets (value (ip_address current)))
          then true else false).

(** The maximum of [f] over a non-empty list. *)
Fixpoint maximum {A} (f : A -> Z) (x : A) (xs : list A) : Z :=
  match xs with
  | [] => f x
  | y :: ys => Z.max (f x) (maximum f y ys)
  end.

Definition confidence (history : option (list TDeviceSession))
    (current : TDeviceInfo) : Z :=
  match history with
  | None | Some [] => 100
  | Some (s :: rest) => maximum (session_score current) s rest
  end.

End Score.

(** The reference definition with the OS guard as the claim has it. *)
Definition confidence_as_claimed := confidence present.

(** The reference definition with the OS guard the code has. *)
Definition confidence_amended := confidence present_nonempty.

(** An attribute is absent: [null] or [undefined]. *)
Definition absent (a : attribute) : Prop := a = Null \/ a = Undefined.

(** Both values are absent, or both are the empty string. *)
Definition both_absent_or_empty (a b : attribute) : Prop :=
  (absent a /\ absent b) \/ (a = Str "" /\ b = Str "").

(** Both values are missing in the same way: the same absent value, or the
    empty string. *)
Definition both_missing (a b : attribute) : Prop :=
  (a = Null /\ b = Null) \/ (a = Undefined /\ b = Undefined)
  \/ (a = Str "" /\ b = Str "").

(** The E.164 shape as the specification gives it: a plus sign followed by
    2 to 15 digits. *)
Definition is_digit (c : ascii) : bool :=
  (48 <=? nat_of_ascii c)%nat && (nat_of_ascii c <=? 57)%nat.

Definition all_digits (s : string) : bool := Js.every is_digit s.

Definition plus_and_2_to_15_digits (s : string) : Prop :=
  exists ds, s = String "+" ds
             /\ (2 <= String.length ds <= 15)%nat /\ all_digits ds = true.

(** The shape the pattern has: a plus sign, a digit from 1 to 9, then 1 to
    14 digits. *)
Definition is_nonzero_digit (c : ascii) : bool :=
  (49 <=? nat_of_ascii c)%nat && (nat_of_ascii c <=? 57)%nat.

Definition plus_nonzero_then_1_to_14_digits (s : string) : Prop :=
  exists d ds, s = String "+" (String d ds)
               /\ is_nonzero_digit d = true
               /\ (1 <= String.length ds <= 14)%nat /\ all_digits ds = true.

End Reference.

(* ================================================================== *)
(** * Vocabulary for the two-factor statements *)
(* ================================================================== *)

Module Factors.

Import Auth.

Definition totp_of (d : option FactorsData) : option (list Factor) :=
  match d with Some d => totp d | None => None end.

Definition phone_of (d : option FactorsData) : option (list Factor) :=
  match d with Some d => phone d | None => None end.

(** The verified factors of one listing, in the provider's order. *)
Definition verified_of (fs : option (list Factor)) : list Factor :=
  match fs with Some l => filter isVerified l | None => [] end.

(** The listing with every factor that is not verified taken out. *)
Definition only_verified (d : option FactorsData) : option FactorsData :=
  match d with
  | Some d =>
      Some {| totp := option_map (filter isVerified) (totp d);
              phone := option_map (filter isVerified) (phone d) |}
  | None => None
  end.

Definition method (kind : string) (f : Factor) : TMethod :=
  {| method_type := kind; method_factorId := id f |}.

Definition required (default : TMethod) (ms : list TMethod)
  : TwoFactorRequirement :=
  {| requiresTwoFactor := true;
     factorId := Some (method_factorId default);
     availableMethods := Some ms |}.

(** The method kinds the resolver knows. *)
Definition recognised (m : TMethod) : Prop :=
  method_type m = "authenticator" \/ method_type m = "sms".

(** 2FA is switched on and at least one method is enabled. *)
Definition switched_on (cfg : TAuthConfig) : Prop :=
  tfa_enabled (twoFactorAuth cfg) = true
  /\ filter cm_enabled (tfa_methods (twoFactorAuth cfg)) <> [].

(** The listing call was made. *)
Definition consulted (m : Eff.t TwoFactorRequirement) : Prop :=
  In (Eff.Provider "auth.mfa.listFactors") (Eff.trace m).

(** Sample configuration, factors and clients. *)
Definition config_on : TAuthConfig :=
  {| twoFactorAuth :=
       {| tfa_enabled := true;
          tfa_methods := [ {| cm_type := "authenticator"; cm_enabled := true |};
                           {| cm_type := "sms"; cm_enabled := false |} ] |};
     api_rate_limit_enabled := true |}.

Definition config_off : TAuthConfig :=
  {| twoFactorAuth := {| tfa_enabled := false; tfa_methods := [] |};
     api_rate_limit_enabled := true |}.

Definition app_pending : Factor := {| id := "totp-0"; status := "unverified" |}.
Definition app : Factor := {| id := "totp-1"; status := "verified" |}.
Definition mobile : Factor := {| id := "sms-1"; status := "verified" |}.

Definition listing : Response FactorsData :=
  {| data := Some {| totp := Some [app_pending; app]; phone := Some [mobile] |};
     error := None |}.

Definition listing_failed : Response FactorsData :=
  {| data := None; error := Some {| message := "network" |} |}.

Definition client (r : Response FactorsData) : SupabaseClient :=
  {| mfa_listFactors := Eff.Returned r |}.

End Factors.

(* ================================================================== *)
(** * Vocabulary for the route statements *)
(* ================================================================== *)

Module Requests.

Import AuthValidation Routes.

Definition reset_call : Eff.event := Eff.Provider "auth.resetPasswordForEmail".
Definition signUp_call : Eff.event := Eff.Provider "auth.signUp".

Definition redirectTo (request : Request) : string :=
  origin request ++ "/auth/reset-password".

Definition unexpected : NextResponse :=
  json_err "An unexpected error occurred" 500.

Definition alreadyRegistered : NextResponse :=
  json_err "This email is already registered. Please try logging in instead."
    400.

(** A sample sign-up request and two providers: one that knows the address
    already, one that does not. *)
Definition any_shape (s : string) : bool := true.

Definition form : Request :=
  {| x_forwarded_for := None;
     json := Eff.Returned
               (BodyObject (JString "ada@example.org") (JString "correct horse"));
     origin := "https://app.example.org" |}.

Definition no_reset (email : AuthValidation.json) (redirect : string)
  : Eff.outcome (Auth.Response unit) :=
  Eff.Returned {| Auth.data := Some tt; Auth.error := None |}.

Definition failing_reset (email : AuthValidation.json) (redirect : string)
  : Eff.outcome (Auth.Response unit) :=
  Eff.Returned {| Auth.data := None;
                  Auth.error := Some {| Auth.message := "User not found" |} |}.

Definition provider_knowing_address : ServerClient :=
  {| resetPasswordForEmail := no_reset;
     signUp := fun _ =>
       Eff.Returned
         {| Auth.data := Some {| user := Some {| identities := Some [] |} |};
            Auth.error := None |} |}.

Definition provider_new_address : ServerClient :=
  {| resetPasswordForEmail := failing_reset;
     signUp := fun _ =>
       Eff.Returned
         {| Auth.data :=
              Some {| user := Some {| identities := Some ["email"] |} |};
            Auth.error := None |} |}.

Definition signup_at (provider : ServerClient) : Eff.t NextResponse :=
  signup_POST any_shape None (Eff.Returned provider) Factors.config_on form.

Definition forgot_at (provider : ServerClient) : Eff.t NextResponse :=
  forgotPassword_POST any_shape None (fun _ => "203.0.113.7")
    (Eff.Returned provider) form.

End Requests.

(* ================================================================== *)
(** * src/utils/auth.ts: code verification, factor lookup, local addresses *)
(* ================================================================== *)

Module AuthMfa.

Import Js Auth.

(** An entry of the provider's [all] list. *)
Record MfaFactor : Type := {
  mf_id : string;
  mf_status : string;
  factor_type : string
}.

(** The whole answer of [listFactors]: the [all] list beside the lists by
    kind. *)
Record ListFactorsData : Type := {
  all : option (list MfaFactor);
  by_kind : FactorsData
}.

Record ChallengeData : Type := {
  challenge_id : string
}.

(** The part of the Supabase client the three functions call. *)
Record MfaClient : Type := {
  listFactors : Eff.outcome (Response ListFactorsData);
  challenge : string -> Eff.outcome (Response ChallengeData);
  verify : string -> string -> string -> Eff.outcome (Response unit)
}.

(** The same client as [checkTwoFactorRequirements] sees it. *)
Definition listing_by_kind (r : Response ListFactorsData)
  : Response FactorsData :=
  {| data := option_map by_kind (data r); error := error r |}.

Definition as_SupabaseClient (c : MfaClient) : SupabaseClient :=
  {| mfa_listFactors :=
       match listFactors c with
       | Eff.Returned r => Eff.Returned (listing_by_kind r)
       | Eff.Thrown m => Eff.Thrown m
       end |}.

(** [verifyTwoFactorCode(supabase, factorId, code)]. *)
Definition verifyTwoFactorCode (supabase : MfaClient) (factorId code : string)
  : Eff.t unit :=
  c <- Eff.await "auth.mfa.challenge" (challenge supabase factorId) ;;
  match error c with
  | Some challengeError => Eff.throw (message challengeError)
  | None =>
      match data c with
      | None =>
          Eff.throw "TypeError: Cannot read properties of null (reading 'id')"
      | Some challengeData =>
          v <- Eff.await "auth.mfa.verify"
                 (verify supabase factorId (challenge_id challengeData) code) ;;
          match error v with
          | Some verifyError => Eff.throw (message verifyError)
          | None => Eff.ret tt
          end
      end
  end.

(** The predicate handed to [find] in [getFactorIdForMethod]. *)
Definition isFactorFor (method : string) (f : MfaFactor) : bool :=
  String.eqb (mf_status f) "verified"
  && (if String.eqb (factor_type f) "totp"
      then String.eqb method "authenticator"
      else String.eqb method "sms").

(** [getFactorIdForMethod(supabase, method)]. *)
Definition getFactorIdForMethod (supabase : MfaClient) (method : string)
  : Eff.t (option string) :=
  r <- Eff.await "auth.mfa.listFactors" (listFactors supabase) ;;
  let factor :=
    match data r with
    | Some factors =>
        match all factors with
        | Some l => find (isFactorFor method) l
        | None => None
        end
    | None => None
    end in
  Eff.ret (option_map mf_id factor).

Definition LOCAL_IPS : list string := ["127.0.0.1"; "::1"; "localhost"].

(** [isLocalIP(ip)]. *)
Definition isLocalIP (ip : string) : bool :=
  existsb (String.eqb ip) LOCAL_IPS.

(** The split of the [all] list the lists by kind are expected to be: the
    factors of type "totp" and the others, as [{id, status}] entries. *)
Definition plain (f : MfaFactor) : Factor :=
  {| id := mf_id f; status := mf_status f |}.

Definition of_type_totp (f : MfaFactor) : bool :=
  String.eqb (factor_type f) "totp".

Definition kinds_agree (d : ListFactorsData) : Prop :=
  exists l,
    all d = Some l
    /\ totp (by_kind d) = Some (map plain (filter of_type_totp l))
    /\ phone (by_kind d)
       = Some (map plain (filter (fun f => negb (of_type_totp f)) l)).

(** The entries of the [all] list of an answer ([factors?.all]). *)
Definition factors_of (r : Response ListFactorsData) : list MfaFactor :=
  match data r with
  | Some d => match all d with Some l => l | None => [] end
  | None => []
  end.

Definition challenge_call : Eff.event := Eff.Provider "auth.mfa.challenge".
Definition verify_call : Eff.event := Eff.Provider "auth.mfa.verify".

(** A sample user with an authenticator app, a pending second app and a
    phone, and a provider that accepts the code 123456 for the app only. *)
Definition sample_factors : ListFactorsData :=
  {| all := Some [ {| mf_id := "totp-0"; mf_status := "unverified";
                      factor_type := "totp" |};
                   {| mf_id := "sms-1"; mf_status := "verified";
                      factor_type := "phone" |};
                   {| mf_id := "totp-1"; mf_status := "verified";
                      factor_type := "totp" |} ];
     by_kind :=
       {| totp := Some [ {| id := "totp-0"; status := "unverified" |};
                         {| id := "totp-1"; status := "verified" |} ];
          phone := Some [ {| id := "sms-1"; status := "verified" |} ] |} |}.

Definition sample_listing : Response ListFactorsData :=
  {| data := Some sample_factors; error := None |}.

Definition sample_client : MfaClient :=
  {| listFactors := Eff.Returned sample_listing;
     challenge := fun factorId =>
       if String.eqb factorId "totp-1"
       then Eff.Returned {| data := Some {| challenge_id := "ch-7" |};
                            error := None |}
       else Eff.Returned {| data := None;
                            error := Some {| message := "Factor not found" |} |};
     verify := fun factorId challengeId code =>
       if String.eqb code "123456"
       then Eff.Returned {| data := Some tt; error := None |}
       else Eff.Returned {| data := None;
                            error := Some {| message := "Invalid TOTP code" |} |}
  |}.

End AuthMfa.

(* ================================================================== *)
(** * src/utils/validation/auth-validation.ts: the object schemas *)
(* ================================================================== *)

Module Schemas.

Import AuthValidation.




Definition is_string (v : json) : bool :=
  match v with JString _ => true | _ => false end.



(** [currentPassword] of [passwordChangeSchema]. *)
Definition currentPasswordSchema : ZodString :=
  [ min 1 "Current password is required" ].

(** The body of a password change: a JSON object, of which the schema reads
    three fields, [null], or another JSON value. *)
Inductive change_body : Type :=
| ChangeObject (currentPassword newPassword confirmPassword : json)
| ChangeNull
| ChangeOther (typeName : string).

Record PasswordChangeSchema : Type := {
  currentPassword : string;
  newPassword : string;
  confirmPassword : string
}.

(** [passwordChangeSchema.safeParse(body)]: the three fields in order, then
    the refinement, which zod skips when a field is not a string at all. *)
Definition passwordChangeSchema_safeParse (b : change_body)
  : SafeParseReturn PasswordChangeSchema :=
  match b with
  | ChangeObject cur new conf =>
      let fieldIssues :=
        (issues_of currentPasswordSchema cur
         ++ issues_of passwordSchema new
         ++ issues_of [] conf)%list in
      match cur, new, conf with
      | JString c, JString n, JString f =>
          match (fieldIssues
                 ++ (if String.eqb n f then []
                     else ["Passwords don't match"]))%list with
          | [] => success {| currentPassword := c; newPassword := n;
                             confirmPassword := f |}
          | issues => failure issues
          end
      | _, _, _ => failure fieldIssues
      end
  | ChangeNull => failure ["Expected object, received null"]
  | ChangeOther ty => failure ["Expected object, received " ++ ty]
  end.

Section Zod.

Variable zod_email : string -> bool.



End Zod.

End Schemas.

(* ================================================================== *)
(** * The change-password route handler *)
(* ================================================================== *)

Module ChangePassword.

Import AuthValidation Schemas Routes.

Record AccountUser : Type := {
  user_email : option string;
  providers : option (list string)
}.

(** [{ data: { user }, error }] of [auth.getUser()]. *)
Record GetUser : Type := {
  gu_user : option AccountUser;
  gu_error : option Auth.AuthError
}.

Record AccountClient : Type := {
  getUser : Eff.outcome GetUser;
  signInWithPassword :
    option string -> string -> Eff.outcome (Auth.Response unit);
  updateUser : string -> Eff.outcome (Auth.Response unit)
}.

Record ChangeRequest : Type := {
  cr_x_forwarded_for : option string;
  cr_json : Eff.outcome change_body
}.

Section Handler.

(** Modelled from the spec: [apiRateLimit] comes from [@/utils/rate-limit]
    and [createClient] from [@/utils/supabase/server], which are not among
    the sources. *)
Variable apiRateLimit : option (string -> Eff.outcome bool).
Variable createClient : Eff.outcome AccountClient.
Variable AUTH_CONFIG : Auth.TAuthConfig.

(** [user.app_metadata.providers?.includes("email")]. *)
Definition hasPasswordAuth (user : AccountUser) : bool :=
  match providers user with
  | Some ps => existsb (String.eqb "email") ps
  | None => false
  end.

(** [POST] of the change-password route. *)
Definition changePassword_POST (request : ChangeRequest)
  : Eff.t NextResponse :=
  Eff.try_catch
    (limited <-
       match apiRateLimit with
       | Some limiter =>
           if Auth.api_rate_limit_enabled AUTH_CONFIG then
             let ip := match cr_x_forwarded_for request with
                       | Some ip => ip
                       | None => "127.0.0.1"
                       end in
             success <- limit limiter ip ;;
             Eff.ret (negb success)
           else Eff.ret false
       | None => Eff.ret false
       end ;;
     if limited : bool then Eff.ret tooManyRequests
     else
       supabase <- Eff.await "createClient" createClient ;;
       g <- Eff.await "auth.getUser" (getUser supabase) ;;
       match gu_error g, gu_user g with
       | None, Some user =>
           body <- ([], cr_json request) ;;
           match passwordChangeSchema_safeParse body with
           | failure issues =>
               Eff.ret (json_err (or_else (hd_error issues) "Invalid input") 400)
           | success d =>
               verified <-
                 (if hasPasswordAuth user then
                    r <- Eff.await "auth.signInWithPassword"
                           (signInWithPassword supabase (user_email user)
                              (currentPassword d)) ;;
                    Eff.ret (match Auth.error r with
                             | Some signInError => false
                             | None => true
                             end)
                  else Eff.ret true) ;;
               if verified : bool then
                 r <- Eff.await "auth.updateUser"
                        (updateUser supabase (newPassword d)) ;;
                 match Auth.error r with
                 | Some updateError =>
                     Eff.emit (Eff.ConsoleError "Failed to update password:") ;;;
                     Eff.ret (json_err "Failed to update password" 500)
                 | None => Eff.ret json_ok
                 end
               else Eff.ret (json_err "Current password is incorrect" 400)
           end
       | _, _ => Eff.ret (json_err "Unauthorized" 401)
       end)
    (fun error =>
       Eff.emit (Eff.ConsoleError "Error in change password:") ;;;
       Eff.ret (json_err "An unexpected error occurred" 500)).

End Handler.

(** A sample account with a password, its provider, and two requests. *)
Definition ada : AccountUser :=
  {| user_email := Some "ada@example.org"; providers := Some ["email"] |}.

Definition account_provider : AccountClient :=
  {| getUser := Eff.Returned {| gu_user := Some ada; gu_error := None |};
     signInWithPassword := fun email password =>
       if String.eqb password "old password"
       then Eff.Returned {| Auth.data := Some tt; Auth.error := None |}
       else Eff.Returned
              {| Auth.data := None;
                 Auth.error :=
                   Some {| Auth.message := "Invalid login credentials" |} |};
     updateUser := fun password =>
       Eff.Returned {| Auth.data := Some tt; Auth.error := None |} |}.

Definition change_request (current : string) : ChangeRequest :=
  {| cr_x_forwarded_for := Some "198.51.100.4";
     cr_json := Eff.Returned
                  (ChangeObject (JString current) (JString "new password")
                     (JString "new password")) |}.

Definition change_at (current : string) : Eff.t NextResponse :=
  changePassword_POST None (Eff.Returned account_provider) Factors.config_on
    (change_request current).

Definition getUser_call : Eff.event := Eff.Provider "auth.getUser".
Definition signIn_call : Eff.event := Eff.Provider "auth.signInWithPassword".
Definition updateUser_call : Eff.event := Eff.Provider "auth.updateUser".

End ChangePassword.

(* ================================================================== *)
(** * src/components/user-dropdown.tsx and the account page *)
(* ================================================================== *)

Module Components.

Import AuthValidation Schemas.

(** What a handler does to its surroundings, in order. *)
Inductive action : Type :=
| Fetch (url method : string)
| ToastError (title description : string)
| ToastSuccess (title description : string)
| StoreLogout
| RouterPush (href : string)
| SetTheme (theme : string)
| PreventDefault
| SetErrors (errors : list (string * string))
| UpdateUser (name email : string).

Record FetchResponse : Type := {
  ok : bool
}.

(** [handleSignOut()], given what [fetch] resolves to. *)
Definition handleSignOut (fetched : Eff.outcome FetchResponse) : list action :=
  Fetch "/api/auth/logout" "POST"
  :: match fetched with
     | Eff.Returned response =>
         ((if negb (ok response)
           then [ToastError "Failed to logout" "Please try again later"]
           else [])
          ++ [StoreLogout; RouterPush "/"])%list
     | Eff.Thrown error =>
         [ToastError "Logout error" "Please try again later"]
     end.

(** [text.charAt(0)]. *)
Definition charAt0 (text : string) : string :=
  match text with
  | EmptyString => EmptyString
  | String c _ => String c EmptyString
  end.

Definition getFirstLetter (text : string) : string := charAt0 text.

(** [getFirstLetter(user?.name || "U")], [name] being [user?.name]. *)
Definition avatarFallback (name : option string) : string :=
  getFirstLetter (Routes.or_else name "U").

(** The second dropdown item, for the current [theme]. *)
Definition themeLabel (theme : option string) : string :=
  if Js.strict_eq theme (Some "light") then "Light mode" else "Dark mode".

Definition themeOnClick (theme : option string) : list action :=
  [SetTheme (if Js.strict_eq theme (Some "light") then "dark" else "light")].










Section Account.

Variable zod_email : string -> bool.


End Account.

End Components.

(* ================================================================== *)
(** * Properties of the built-ins *)
(* ================================================================== *)

Section JsFacts.

Import Js.

Lemma strict_eq_iff (a b : nullable) : strict_eq a b = true <-> a = b.
Proof.
  destruct a as [x|], b as [y|]; simpl; try (split; congruence).
  rewrite String.eqb_eq. split; congruence.
Qed.

Lemma split_not_nil (sep : ascii) (s : string) : split sep s <> [].
Proof.
  destruct s as [|c rest]; simpl; [discriminate|].
  destruct (Ascii.eqb c sep); [discriminate|].
  destruct (split sep rest); discriminate.
Qed.

Lemma split_head (s : string) :
  nth_error (split " " s) 0 = Some (Reference.before_first_space s).
Proof.
  induction s as [|c rest IH]; simpl; [reflexivity|].
  destruct (Ascii.eqb c " "); [reflexivity|].
  destruct (split " " rest) as [|w ws]; simpl in *; [discriminate|].
  congruence.
Qed.

Lemma split_pieces (sep : ascii) (s : string) :
  Forall (fun w => includes sep w = false) (split sep s).
Proof.
  induction s as [|c rest IH]; simpl.
  - repeat constructor.
  - destruct (Ascii.eqb c sep) eqn:E.
    + constructor; [reflexivity | exact IH].
    + destruct (split sep rest) as [|w ws].
      * repeat constructor. simpl. now rewrite E.
      * inversion IH; subst. constructor; [|assumption].
        simpl. now rewrite E.
Qed.

Lemma split_free (sep : ascii) (w : string) :
  includes sep w = false -> split sep w = [w].
Proof.
  induction w as [|c rest IH]; simpl; [reflexivity|].
  intros H. apply orb_false_iff in H as [E H].
  rewrite E, (IH H). reflexivity.
Qed.

Lemma split_app_sep (sep : ascii) (w t : string) :
  includes sep w = false ->
  split sep (w ++ String sep t) = w :: split sep t.
Proof.
  induction w as [|c rest IH]; simpl; intros H.
  - now rewrite Ascii.eqb_refl.
  - apply orb_false_iff in H as [E H]. rewrite E, (IH H). reflexivity.
Qed.

(** Splitting what [join] glued gives the pieces back. *)
Lemma split_join (sep : ascii) (ws : list string) :
  ws <> [] ->
  Forall (fun w => includes sep w = false) ws ->
  split sep (join (String sep "") ws) = ws.
Proof.
  induction ws as [|w rest IH]; [congruence|].
  intros _ Hall. inversion Hall as [|? ? Hw Hrest]; subst.
  destruct rest as [|w' rest'].
  - simpl. now apply split_free.
  - change (join (String sep "") (w :: w' :: rest'))
      with (w ++ String sep (join (String sep "") (w' :: rest'))).
    rewrite (split_app_sep _ _ _ Hw), IH; [reflexivity|discriminate|assumption].
Qed.

Lemma join_inj (sep : ascii) (xs ys : list string) :
  xs <> [] -> ys <> [] ->
  Forall (fun w => includes sep w = false) xs ->
  Forall (fun w => includes sep w = false) ys ->
  join (String sep "") xs = join (String sep "") ys -> xs = ys.
Proof.
  intros Hx Hy Fx Fy E.
  rewrite <- (split_join sep xs Hx Fx), <- (split_join sep ys Hy Fy).
  now rewrite E.
Qed.

Lemma firstn_S_not_nil {A} (n : nat) (xs : list A) :
  xs <> [] -> firstn (S n) xs <> [].
Proof. destruct xs; [congruence | discriminate]. Qed.

Lemma Forall_firstn {A} (P : A -> Prop) (n : nat) (xs : list A) :
  Forall P xs -> Forall P (firstn n xs).
Proof.
  revert xs. induction n as [|n IH]; intros xs H; simpl; [constructor|].
  destruct H; constructor; auto.
Qed.

(** Comparing the joined prefixes is comparing the octet lists. *)
Lemma ip_prefix_eq (a b : string) :
  String.eqb (join "." (slice0 3 (split "." a)))
             (join "." (slice0 3 (split "." b))) = true
  <-> Reference.first_three_octets a = Reference.first_three_octets b.
Proof.
  unfold Reference.first_three_octets, slice0. rewrite String.eqb_eq. split.
  - apply join_inj;
      auto using firstn_S_not_nil, split_not_nil, Forall_firstn, split_pieces.
  - now intros ->.
Qed.

Lemma fold_max_out (l : list Z) (a b : Z) :
  fold_left Z.max l (Z.max a b) = Z.max a (fold_left Z.max l b).
Proof.
  revert b. induction l as [|z l IH]; intros b; simpl; [reflexivity|].
  now rewrite <- Z.max_assoc, IH.
Qed.

Lemma Math_max_maximum {A} (f : A -> Z) (x : A) (xs : list A) :
  Math_max (map f (x :: xs)) = Num (Reference.maximum f x xs).
Proof.
  simpl. f_equal. revert x.
  induction xs as [|y ys IH]; intros x; simpl; [reflexivity|].
  now rewrite fold_max_out, IH.
Qed.

Lemma maximum_bounds {A} (f : A -> Z) (lo hi : Z) (x : A) (xs : list A) :
  (forall y, lo <= f y <= hi) -> lo <= Reference.maximum f x xs <= hi.
Proof.
  intros H. revert x. induction xs as [|y ys IH]; intros x; simpl.
  - apply H.
  - specialize (H x). specialize (IH y). lia.
Qed.

(** The maximum is the score of one of the sessions and no session beats it. *)
Lemma maximum_is_max {A} (f : A -> Z) (x : A) (xs : list A) :
  (exists y, In y (x :: xs) /\ Reference.maximum f x xs = f y)
  /\ forall y, In y (x :: xs) -> f y <= Reference.maximum f x xs.
Proof.
  revert x. induction xs as [|z zs IH]; intros x.
  - split.
    + exists x. simpl. auto.
    + intros y [<-|[]]. simpl. lia.
  - destruct (IH z) as [[y [Hin Hy]] Hub]. split.
    + change (Reference.maximum f x (z :: zs))
        with (Z.max (f x) (Reference.maximum f z zs)).
      destruct (Z.max_spec (f x) (Reference.maximum f z zs)) as [[_ ->]|[_ ->]].
      * exists y. split; [now right | assumption].
      * exists x. split; [now left | reflexivity].
    + intros y' [<-|Hin'];
        change (Reference.maximum f x (z :: zs))
          with (Z.max (f x) (Reference.maximum f z zs)).
      * lia.
      * specialize (Hub y' Hin'). lia.
Qed.

End JsFacts.

(* ================================================================== *)
(** * Device confidence *)
(* ================================================================== *)

Section DeviceConfidence.

Import Js Auth Samples.

Lemma strict_equal_iff (a b : attribute) : strict_equal a b = true <-> a = b.
Proof.
  destruct a as [| |x], b as [| |y]; simpl; try (split; congruence).
  rewrite String.eqb_eq. split; congruence.
Qed.

Lemma same_strict_eq (a b : attribute) :
  Reference.same a b = strict_equal a b.
Proof.
  destruct a as [| |x], b as [| |y]; simpl; try reflexivity.
  destruct (string_dec x y) as [->|N].
  - now rewrite String.eqb_refl.
  - symmetry. now apply String.eqb_neq.
Qed.

Lemma truthy_nonempty (a : attribute) :
  is_truthy a = Reference.present_nonempty a.
Proof. destruct a as [| |[|c s]]; reflexivity. Qed.

Lemma deviceNameStep_weight (stored current : TDeviceInfo) (score : Z) :
  deviceNameStep stored current score
  = score + Reference.weight 30
              (Reference.same (device_name stored) (device_name current)).
Proof.
  unfold deviceNameStep. rewrite same_strict_eq.
  destruct (strict_equal _ _); simpl; lia.
Qed.

Lemma browserStep_weight (stored current : TDeviceInfo) (score : Z) :
  browserStep stored current score
  = score + Reference.weight 20
              (Reference.same (browser stored) (browser current)).
Proof.
  unfold browserStep. rewrite same_strict_eq.
  destruct (strict_equal _ _); simpl; lia.
Qed.

Lemma osStep_weight (stored current : TDeviceInfo) (score : Z) :
  osStep stored current score
  = score + Reference.weight 20
      (Reference.present_nonempty (os stored)
       && Reference.present_nonempty (os current)
       && String.eqb (Reference.before_first_space (Reference.value (os stored)))
                     (Reference.before_first_space (Reference.value (os current)))).
Proof.
  unfold osStep.
  destruct (os stored) as [| |a], (os current) as [| |b];
    rewrite ?truthy_nonempty; simpl Reference.value;
    try (simpl; rewrite ?andb_false_r; simpl; lia).
  rewrite !split_head. simpl elem_strict_eq.
  destruct (Reference.present_nonempty (Str a)
            && Reference.present_nonempty (Str b)); simpl.
  - destruct (String.eqb _ _); simpl; lia.
  - lia.
Qed.

Lemma ipStep_weight (stored current : TDeviceInfo) (score : Z) :
  ipStep stored current score
  = score + Reference.weight 15
      (Reference.present_nonempty (ip_address stored)
       && Reference.present_nonempty (ip_address current)
       && if list_eq_dec string_dec
               (Reference.first_three_octets (Reference.value (ip_address stored)))
               (Reference.first_three_octets (Reference.value (ip_address current)))
          then true else false).
Proof.
  unfold ipStep.
  destruct (ip_address stored) as [| |a], (ip_address current) as [| |b];
    rewrite ?truthy_nonempty; simpl Reference.value;
    try (simpl; rewrite ?andb_false_r; simpl; lia).
  destruct (Reference.present_nonempty (Str a)
            && Reference.present_nonempty (Str b)); cbn [andb];
    [|unfold Reference.weight; lia].
  cbv zeta. destruct (list_eq_dec string_dec _ _) as [E|N].
  - apply ip_prefix_eq in E. rewrite E. unfold Reference.weight. lia.
  - destruct (String.eqb _ _) eqn:E; [|unfold Reference.weight; lia].
    apply ip_prefix_eq in E. contradiction.
Qed.

(** The callback computes the sum of the four independent weights. *)
Lemma sessionScore_reference (current : TDeviceInfo) (session : TDeviceSession) :
  sessionScore current session
  = Reference.session_score Reference.present_nonempty current session.
Proof.
  unfold sessionScore, Reference.session_score.
  rewrite ipStep_weight, osStep_weight, browserStep_weight,
    deviceNameStep_weight.
  lia.
Qed.

Lemma weight_bounds (w : Z) (b : bool) : 0 <= w -> 0 <= Reference.weight w b <= w.
Proof. destruct b; simpl; lia. Qed.

Lemma sessionScore_bounds (current : TDeviceInfo) (session : TDeviceSession) :
  0 <= sessionScore current session <= 85.
Proof.
  rewrite sessionScore_reference. unfold Reference.session_score.
  repeat match goal with
         | |- context [Reference.weight ?w ?b] =>
             let H := fresh in
             assert (H : 0 <= Reference.weight w b <= w)
               by (apply weight_bounds; lia);
             generalize dependent (Reference.weight w b); intros
         end.
  lia.
Qed.

Lemma step_monotone (stored current : TDeviceInfo) (score : Z) :
  score <= deviceNameStep stored current score
  /\ score <= browserStep stored current score
  /\ score <= osStep stored current score
  /\ score <= ipStep stored current score.
Proof.
  rewrite deviceNameStep_weight, browserStep_weight, osStep_weight,
    ipStep_weight.
  repeat split;
    match goal with
    | |- context [Reference.weight ?w ?b] =>
        pose proof (weight_bounds w b ltac:(lia)); lia
    end.
Qed.

Lemma calculateDeviceConfidence_cons
    (s : TDeviceSession) (rest : list TDeviceSession) (current : TDeviceInfo) :
  calculateDeviceConfidence (Some (s :: rest)) current
  = Num (Reference.maximum (sessionScore current) s rest).
Proof.
  unfold calculateDeviceConfidence. apply Math_max_maximum.
Qed.

Lemma maximum_ext {A} (f g : A -> Z) (x : A) (xs : list A) :
  (forall y, f y = g y) -> Reference.maximum f x xs = Reference.maximum g x xs.
Proof.
  intros H. revert x. induction xs as [|y ys IH]; intros x; simpl.
  - apply H.
  - now rewrite H, IH.
Qed.

(** Case matters: a browser reported in another case earns nothing. *)
Example browser_case_matters :
  browserStep laptop
    {| device_name := Null; browser := Str "chrome"; os := Null;
       ip_address := Null |} 0 = 0.
Proof. reflexivity. Qed.

Example same_device_scores_85 :
  calculateDeviceConfidence (Some [seen phone_elsewhere; seen laptop]) laptop_later
  = Num 85.
Proof. reflexivity. Qed.

Example nothing_matches_scores_0 :
  calculateDeviceConfidence (Some [seen laptop]) phone_elsewhere = Num 0.
Proof. reflexivity. Qed.

Example levels :
  getConfidenceLevel 85 = high /\ getConfidenceLevel 50 = medium
  /\ getConfidenceLevel 0 = low.
Proof. repeat split. Qed.

Example names_only_scores_50 :
  calculateDeviceConfidence
    (Some [seen {| device_name := Str "MacBook Pro"; browser := Str "Chrome";
                   os := Null; ip_address := Null |}])
    {| device_name := Str "MacBook Pro"; browser := Str "Chrome";
       os := Undefined; ip_address := Undefined |}
  = Num 50.
Proof. reflexivity. Qed.

(** C3, as stated, fails: with the OS weight guarded by presence alone, two
    sessions that both carry the empty OS string would earn the 20 points of
    the OS weight; the code awards nothing for them. *)
Lemma C3_empty_os_counterexample :
  calculateDeviceConfidence (Some [seen kiosk]) console = Num 0
  /\ Reference.confidence_as_claimed (Some [seen kiosk]) console = 20
  /\ calculateDeviceConfidence (Some [seen kiosk]) console
     <> Num (Reference.confidence_as_claimed (Some [seen kiosk]) console).
Proof.
  split; [reflexivity|]. split; [reflexivity|].
  vm_compute. discriminate.
Qed.

(** C3, amended: [calculateDeviceConfidence] equals the reference definition
    in which the OS weight, like the IP weight, needs both values present
    and non-empty: 100 for an absent or empty history, otherwise the maximum
    over the sessions of the sum of the weights 30 (equal device name), 20
    (equal browser), 20 (equal OS text before the first space), 15 (equal
    first three dot-separated octets), all compared exactly. *)
Theorem C3_confidence_is_reference :
  forall (history : option (list TDeviceSession)) (current : TDeviceInfo),
    calculateDeviceConfidence history current
    = Num (Reference.confidence_amended history current).
Proof.
  intros [[|s rest]|] current; try reflexivity.
  rewrite calculateDeviceConfidence_cons.
  unfold Reference.confidence_amended, Reference.confidence. f_equal.
  apply maximum_ext. intros y. apply sessionScore_reference.
Qed.

(** C4: on a non-empty history the score is a number between 0 and 85; on
    any history it is a number between 0 and 100, and it is 100 exactly when
    the history is absent or empty. *)
Theorem C4_confidence_range :
  (forall s rest current,
      exists z, calculateDeviceConfidence (Some (s :: rest)) current = Num z
                /\ 0 <= z <= 85)
  /\ (forall history current,
        exists z, calculateDeviceConfidence history current = Num z
                  /\ 0 <= z <= 100
                  /\ (z = 100 <-> history = None \/ history = Some [])).
Proof.
  assert (B : forall s rest current,
             0 <= Reference.maximum (sessionScore current) s rest <= 85).
  { intros. apply maximum_bounds. intros y. apply sessionScore_bounds. }
  split.
  - intros s rest current. eexists. split.
    + apply calculateDeviceConfidence_cons.
    + apply B.
  - intros [[|s rest]|] current.
    + exists 100. repeat split; auto; lia.
    + eexists. split; [apply calculateDeviceConfidence_cons|].
      specialize (B s rest current). split; [lia|]. split.
      * intros E. lia.
      * intros [E|E]; discriminate.
    + exists 100. repeat split; auto; lia.
Qed.

Lemma elem_strict_eq_refl (x : option string) : elem_strict_eq x x = true.
Proof. destruct x; simpl; [apply String.eqb_refl | reflexivity]. Qed.

Lemma nonempty_truthy (s : string) : s <> "" -> is_truthy (Str s) = true.
Proof. intros N. simpl. apply String.eqb_neq in N. now rewrite N. Qed.

Lemma deviceNameStep_missing (stored current : TDeviceInfo) (score : Z) :
  Reference.both_missing (device_name stored) (device_name current) ->
  deviceNameStep stored current score = score + 30.
Proof.
  intros [[E1 E2]|[[E1 E2]|[E1 E2]]]; unfold deviceNameStep;
    rewrite E1, E2; reflexivity.
Qed.

Lemma browserStep_missing (stored current : TDeviceInfo) (score : Z) :
  Reference.both_missing (browser stored) (browser current) ->
  browserStep stored current score = score + 20.
Proof.
  intros [[E1 E2]|[[E1 E2]|[E1 E2]]]; unfold browserStep;
    rewrite E1, E2; reflexivity.
Qed.

Lemma osStep_guard (stored current : TDeviceInfo) (score : Z) :
  is_truthy (os stored) && is_truthy (os current) = false ->
  osStep stored current score = score.
Proof.
  unfold osStep.
  destruct (os stored) as [| |a], (os current) as [| |b]; try reflexivity.
  intros H. now rewrite H.
Qed.

Lemma ipStep_guard (stored current : TDeviceInfo) (score : Z) :
  is_truthy (ip_address stored) && is_truthy (ip_address current) = false ->
  ipStep stored current score = score.
Proof.
  unfold ipStep.
  destruct (ip_address stored) as [| |a], (ip_address current) as [| |b];
    try reflexivity.
  intros H. now rewrite H.
Qed.

Lemma confidence_single (session : TDeviceSession) (current : TDeviceInfo) :
  calculateDeviceConfidence (Some [session]) current
  = Num (sessionScore current session).
Proof. reflexivity. Qed.

Lemma confidence_at_least (before after : list TDeviceSession)
    (session : TDeviceSession) (current : TDeviceInfo) :
  exists z,
    calculateDeviceConfidence (Some (before ++ session :: after)%list) current
    = Num z
    /\ sessionScore current session <= z.
Proof.
  destruct (before ++ session :: after)%list as [|s rest] eqn:E.
  - destruct before; discriminate.
  - eexists. split; [apply calculateDeviceConfidence_cons|].
    apply (maximum_is_max (sessionScore current) s rest).
    rewrite <- E. apply in_or_app. right. now left.
Qed.

(** C10, as stated, fails: a stored session whose device name and browser
    are [null] and a login whose device name and browser are [undefined]
    have both values absent, and [===] tells the two apart: neither the 30
    nor the 20 points are added and the score is 0. *)
Lemma C10_null_undefined_counterexample :
  Reference.both_absent_or_empty
    (device_name (device (seen bare))) (device_name unread)
  /\ Reference.both_absent_or_empty
       (browser (device (seen bare))) (browser unread)
  /\ deviceNameStep (device (seen bare)) unread 0 = 0
  /\ browserStep (device (seen bare)) unread 0 = 0
  /\ calculateDeviceConfidence (Some [seen bare]) unread = Num 0.
Proof.
  split; [left; split; [left | right]; reflexivity|].
  split; [left; split; [left | right]; reflexivity|].
  repeat split.
Qed.

(** C10, amended: the device-name and browser comparisons have no presence
    guard: when both device names are missing in the same way (both [null],
    both [undefined] or both the empty string) the 30 points are added, and
    likewise the 20 points of the browser, while a [null] against an
    [undefined] adds nothing. The session's score is then exactly 30 (or
    20, or 50 for both) plus what the remaining steps add, every history
    containing the session scores at least that much, and a single such
    session whose OS and IP are not both present scores exactly 50. The OS
    and IP steps are guarded: they add nothing unless both values are
    non-empty strings, and add 20 and 15 for equal non-empty strings. *)
Theorem C10_missing_names_still_match :
  forall (session : TDeviceSession) (current : TDeviceInfo),
    let stored := device session in
    (Reference.both_missing (device_name stored) (device_name current) ->
     (forall score, deviceNameStep stored current score = score + 30)
     /\ sessionScore current session
        = ipStep stored current
            (osStep stored current (browserStep stored current 30))
     /\ forall before after,
          exists z,
            calculateDeviceConfidence
              (Some (before ++ session :: after)%list) current = Num z
            /\ 30 <= z)
    /\ (Reference.both_missing (browser stored) (browser current) ->
        (forall score, browserStep stored current score = score + 20)
        /\ sessionScore current session
           = ipStep stored current
               (osStep stored current (deviceNameStep stored current 0 + 20))
        /\ forall before after,
             exists z,
               calculateDeviceConfidence
                 (Some (before ++ session :: after)%list) current = Num z
               /\ 20 <= z)
    /\ (Reference.both_missing (device_name stored) (device_name current) ->
        Reference.both_missing (browser stored) (browser current) ->
        sessionScore current session
        = ipStep stored current (osStep stored current 50)
        /\ (is_truthy (os stored) && is_truthy (os current) = false ->
            is_truthy (ip_address stored) && is_truthy (ip_address current)
            = false ->
            calculateDeviceConfidence (Some [session]) current = Num 50))
    /\ (forall score,
          Reference.absent (device_name stored) ->
          Reference.absent (device_name current) ->
          device_name stored <> device_name current ->
          deviceNameStep stored current score = score)
    /\ (forall score,
          Reference.absent (browser stored) ->
          Reference.absent (browser current) ->
          browser stored <> browser current ->
          browserStep stored current score = score)
    /\ (forall score,
          is_truthy (os stored) && is_truthy (os current) = false ->
          osStep stored current score = score)
    /\ (forall score s,
          s <> "" -> os stored = Str s -> os current = Str s ->
          osStep stored current score = score + 20)
    /\ (forall score,
          is_truthy (ip_address stored) && is_truthy (ip_address current)
          = false ->
          ipStep stored current score = score)
    /\ (forall score s,
          s <> "" -> ip_address stored = Str s -> ip_address current = Str s ->
          ipStep stored current score = score + 15).
Proof.
  intros session current stored.
  assert (S3 : forall a, a <= ipStep stored current
                                (osStep stored current a)).
  { intros a.
    pose proof (step_monotone stored current a) as (_ & _ & Mo & _).
    pose proof (step_monotone stored current (osStep stored current a))
      as (_ & _ & _ & Mi).
    lia. }
  pose proof (step_monotone stored current) as M.
  split; [|split; [|split; [|split; [|split; [|split; [|split; [|split]]]]]]].
  - intros H.
    assert (E : sessionScore current session
                = ipStep stored current
                    (osStep stored current (browserStep stored current 30))).
    { unfold sessionScore. fold stored.
      now rewrite (deviceNameStep_missing stored current 0 H). }
    split; [intros score; now apply deviceNameStep_missing|].
    split; [exact E|].
    intros before after.
    destruct (confidence_at_least before after session current)
      as (z & Ez & Lz).
    exists z. split; [exact Ez|]. rewrite E in Lz.
    pose proof (M 30) as (_ & Mb & _).
    pose proof (S3 (browserStep stored current 30)). lia.
  - intros H.
    assert (E : sessionScore current session
                = ipStep stored current
                    (osStep stored current
                       (deviceNameStep stored current 0 + 20))).
    { unfold sessionScore. fold stored.
      now rewrite (browserStep_missing stored current _ H). }
    split; [intros score; now apply browserStep_missing|].
    split; [exact E|].
    intros before after.
    destruct (confidence_at_least before after session current)
      as (z & Ez & Lz).
    exists z. split; [exact Ez|]. rewrite E in Lz.
    pose proof (M 0) as (Md & _).
    pose proof (S3 (deviceNameStep stored current 0 + 20)). lia.
  - intros Hd Hb.
    assert (E : sessionScore current session
                = ipStep stored current (osStep stored current 50)).
    { unfold sessionScore. fold stored.
      now rewrite (deviceNameStep_missing stored current 0 Hd),
        (browserStep_missing stored current _ Hb). }
    split; [exact E|].
    intros Go Gi. rewrite confidence_single, E.
    now rewrite (osStep_guard stored current 50 Go),
      (ipStep_guard stored current 50 Gi).
  - intros score [A|A] [B|B] N; unfold deviceNameStep;
      rewrite A, B in *; try reflexivity; congruence.
  - intros score [A|A] [B|B] N; unfold browserStep;
      rewrite A, B in *; try reflexivity; congruence.
  - intros score. apply osStep_guard.
  - intros score s N E1 E2. unfold osStep. rewrite E1, E2.
    rewrite (nonempty_truthy s N). cbn [andb].
    now rewrite elem_strict_eq_refl.
  - intros score. apply ipStep_guard.
  - intros score s N E1 E2. unfold ipStep. rewrite E1, E2.
    rewrite (nonempty_truthy s N). cbn [andb].
    now rewrite String.eqb_refl.
Qed.

(** C10 at a stored row and a login that both have [null] throughout. *)
Lemma C10_witness :
  Reference.both_missing (device_name (device (seen bare))) (device_name bare)
  /\ Reference.both_missing (browser (device (seen bare))) (browser bare)
  /\ calculateDeviceConfidence (Some [seen bare]) bare = Num 50.
Proof.
  assert (Hd : Reference.both_missing (device_name (device (seen bare)))
                 (device_name bare)) by (left; split; reflexivity).
  assert (Hb : Reference.both_missing (browser (device (seen bare)))
                 (browser bare)) by (left; split; reflexivity).
  split; [exact Hd|]. split; [exact Hb|].
  exact (proj2 (proj1 (proj2 (proj2
           (C10_missing_names_still_match (seen bare) bare))) Hd Hb)
           eq_refl eq_refl).
Defined.

End DeviceConfidence.

(* ================================================================== *)
(** * Two-factor requirement *)
(* ================================================================== *)

Section TwoFactor.

Import Js Auth Factors.

Lemma find_some_in {A} (p : A -> bool) (xs : list A) (x : A) :
  find p xs = Some x -> In x xs /\ p x = true.
Proof. apply List.find_some. Qed.

(** What the two [push]es leave in [availableMethods]. *)
Lemma collectMethods_spec (d : option FactorsData) :
  collectMethods d
  = (map (method "authenticator") (firstn 1 (verified_of (totp_of d)))
     ++ map (method "sms") (firstn 1 (verified_of (phone_of d))))%list.
Proof.
  unfold collectMethods, pushFirstVerified, verified_of.
  fold (totp_of d). fold (phone_of d).
  destruct (totp_of d) as [ts|], (phone_of d) as [ps|]; simpl;
    try destruct (filter isVerified ts); try destruct (filter isVerified ps);
    reflexivity.
Qed.

Lemma collectMethods_recognised (d : option FactorsData) :
  Forall recognised (collectMethods d).
Proof.
  rewrite collectMethods_spec. apply Forall_app. split.
  - destruct (verified_of (totp_of d)); simpl; constructor;
      [now left | constructor].
  - destruct (verified_of (phone_of d)); simpl; constructor;
      [now right | constructor].
Qed.

Lemma mostTrusted_recognised (ms : list TMethod) :
  ms <> [] -> Forall recognised ms ->
  exists m, getMostTrustedTwoFactorMethod (Some ms) = Some m /\ In m ms.
Proof.
  intros Hne Hall. unfold getMostTrustedTwoFactorMethod.
  destruct ms as [|m0 rest]; [congruence|].
  destruct (find _ (m0 :: rest)) as [a|] eqn:Fa.
  - exists a. split; [reflexivity|]. now apply find_some_in in Fa.
  - destruct (find (fun m => String.eqb (method_type m) "sms") (m0 :: rest))
      as [b|] eqn:Fb.
    + exists b. split; [reflexivity|]. now apply find_some_in in Fb.
    + exfalso. inversion Hall as [|? ? H0 _]; subst.
      pose proof (List.find_none _ _ Fa m0 (or_introl eq_refl)) as Na.
      pose proof (List.find_none _ _ Fb m0 (or_introl eq_refl)) as Nb.
      simpl in Na, Nb.
      destruct H0 as [E|E]; rewrite E in *; discriminate.
Qed.

(** The default picked among the collected methods. *)
Lemma mostTrusted_collect (d : option FactorsData) :
  getMostTrustedTwoFactorMethod (Some (collectMethods d))
  = match verified_of (totp_of d), verified_of (phone_of d) with
    | a :: _, _ => Some (method "authenticator" a)
    | [], s :: _ => Some (method "sms" s)
    | [], [] => None
    end.
Proof.
  rewrite collectMethods_spec.
  destruct (verified_of (totp_of d)) as [|a ?],
           (verified_of (phone_of d)) as [|s ?]; reflexivity.
Qed.

Lemma check_off (cfg : TAuthConfig) (sb : SupabaseClient) :
  ~ switched_on cfg ->
  checkTwoFactorRequirements cfg sb = ([], Eff.Returned notRequired).
Proof.
  unfold switched_on, checkTwoFactorRequirements. intros H.
  destruct (tfa_enabled (twoFactorAuth cfg)); [|reflexivity].
  destruct (filter cm_enabled (tfa_methods (twoFactorAuth cfg))); simpl.
  - reflexivity.
  - exfalso. apply H. split; [reflexivity | discriminate].
Qed.

Lemma check_on_thrown (cfg : TAuthConfig) (sb : SupabaseClient) (m : string) :
  switched_on cfg -> mfa_listFactors sb = Eff.Thrown m ->
  checkTwoFactorRequirements cfg sb
  = ([Eff.Provider "auth.mfa.listFactors"], Eff.Thrown m).
Proof.
  unfold switched_on, checkTwoFactorRequirements. intros [E N] T.
  rewrite E, T.
  destruct (filter cm_enabled (tfa_methods (twoFactorAuth cfg)));
    [congruence | reflexivity].
Qed.

Lemma check_on_error (cfg : TAuthConfig) (sb : SupabaseClient)
    (r : Response FactorsData) (e : AuthError) :
  switched_on cfg -> mfa_listFactors sb = Eff.Returned r -> error r = Some e ->
  checkTwoFactorRequirements cfg sb
  = ([Eff.Provider "auth.mfa.listFactors";
      Eff.ConsoleError "Error getting MFA factors:"],
     Eff.Thrown "Failed to check 2FA status").
Proof.
  unfold switched_on, checkTwoFactorRequirements. intros [E N] T Er.
  rewrite E, T.
  destruct (filter cm_enabled (tfa_methods (twoFactorAuth cfg)));
    [congruence|].
  simpl. rewrite Er. reflexivity.
Qed.

Lemma check_on_ok (cfg : TAuthConfig) (sb : SupabaseClient)
    (r : Response FactorsData) :
  switched_on cfg -> mfa_listFactors sb = Eff.Returned r -> error r = None ->
  checkTwoFactorRequirements cfg sb
  = ([Eff.Provider "auth.mfa.listFactors"],
     Eff.Returned
       match verified_of (totp_of (data r)), verified_of (phone_of (data r)) with
       | a :: _, _ => required (method "authenticator" a) (collectMethods (data r))
       | [], s :: _ => required (method "sms" s) (collectMethods (data r))
       | [], [] => notRequired
       end).
Proof.
  unfold switched_on, checkTwoFactorRequirements. intros [E N] T Er.
  rewrite E, T.
  destruct (filter cm_enabled (tfa_methods (twoFactorAuth cfg)));
    [congruence|].
  cbn [List.length Nat.eqb negb].
  unfold Eff.await, Eff.bind, Eff.emit. cbv beta iota zeta.
  rewrite Er, mostTrusted_collect.
  rewrite (collectMethods_spec (data r)).
  destruct (verified_of (totp_of (data r))) as [|a ?],
           (verified_of (phone_of (data r))) as [|s ?]; reflexivity.
Qed.

Lemma switched_on_dec (cfg : TAuthConfig) : switched_on cfg \/ ~ switched_on cfg.
Proof.
  unfold switched_on.
  destruct (tfa_enabled (twoFactorAuth cfg)).
  - destruct (filter cm_enabled (tfa_methods (twoFactorAuth cfg))).
    + right. intros [_ H]. congruence.
    + left. split; [reflexivity | discriminate].
  - right. intros [H _]. discriminate.
Qed.

(** The resolver always ends in one of four ways. *)
Lemma check_cases (cfg : TAuthConfig) (sb : SupabaseClient) :
  (~ switched_on cfg
   /\ checkTwoFactorRequirements cfg sb = ([], Eff.Returned notRequired))
  \/ (switched_on cfg /\ exists m,
        mfa_listFactors sb = Eff.Thrown m
        /\ checkTwoFactorRequirements cfg sb
           = ([Eff.Provider "auth.mfa.listFactors"], Eff.Thrown m))
  \/ (switched_on cfg /\ exists r e,
        mfa_listFactors sb = Eff.Returned r /\ error r = Some e
        /\ checkTwoFactorRequirements cfg sb
           = ([Eff.Provider "auth.mfa.listFactors";
               Eff.ConsoleError "Error getting MFA factors:"],
              Eff.Thrown "Failed to check 2FA status"))
  \/ (switched_on cfg /\ exists r,
        mfa_listFactors sb = Eff.Returned r /\ error r = None
        /\ checkTwoFactorRequirements cfg sb
           = ([Eff.Provider "auth.mfa.listFactors"],
              Eff.Returned
                match verified_of (totp_of (data r)),
                      verified_of (phone_of (data r)) with
                | a :: _, _ =>
                    required (method "authenticator" a) (collectMethods (data r))
                | [], s :: _ =>
                    required (method "sms" s) (collectMethods (data r))
                | [], [] => notRequired
                end)).
Proof.
  destruct (switched_on_dec cfg) as [On|Off].
  - right. destruct (mfa_listFactors sb) as [r|m] eqn:T.
    + destruct (error r) as [e|] eqn:Er.
      * right. left. split; [assumption|]. exists r, e.
        eauto using check_on_error.
      * right. right. split; [assumption|]. exists r.
        eauto using check_on_ok.
    + left. split; [assumption|]. exists m. eauto using check_on_thrown.
  - left. split; [assumption | now apply check_off].
Qed.

Lemma in_firstn {A} (n : nat) (xs : list A) (x : A) :
  In x (firstn n xs) -> In x xs.
Proof.
  intros H. rewrite <- (firstn_skipn n xs). apply in_or_app. now left.
Qed.

Lemma verified_of_in (fs : option (list Factor)) (f : Factor) :
  In f (verified_of fs) ->
  exists l, fs = Some l /\ In f l /\ isVerified f = true.
Proof.
  destruct fs as [l|]; simpl; [|contradiction].
  intros H. apply filter_In in H. exists l. tauto.
Qed.

Example both_kinds_default_is_app :
  checkTwoFactorRequirements config_on (client listing)
  = ([Eff.Provider "auth.mfa.listFactors"],
     Eff.Returned (required (method "authenticator" app)
                     [method "authenticator" app; method "sms" mobile])).
Proof. reflexivity. Qed.

(** C2: with 2FA switched on and the listing call answering without error,
    a listing with exactly one verified authenticator factor and exactly one
    verified sms factor is resolved to "required" with the authenticator
    factor as default; in general the default is the first verified
    authenticator factor whenever there is one, and the first verified sms
    factor only when there is none. *)
Theorem C2_authenticator_before_sms :
  forall (cfg : TAuthConfig) (sb : SupabaseClient) (r : Response FactorsData),
    switched_on cfg ->
    mfa_listFactors sb = Eff.Returned r -> error r = None ->
    (forall a s,
        verified_of (totp_of (data r)) = [a] ->
        verified_of (phone_of (data r)) = [s] ->
        Eff.result (checkTwoFactorRequirements cfg sb)
        = Eff.Returned (required (method "authenticator" a)
                          [method "authenticator" a; method "sms" s]))
    /\ (forall a rest,
          verified_of (totp_of (data r)) = a :: rest ->
          exists ms,
            Eff.result (checkTwoFactorRequirements cfg sb)
            = Eff.Returned (required (method "authenticator" a) ms)
            /\ getMostTrustedTwoFactorMethod (Some ms)
               = Some (method "authenticator" a))
    /\ (forall s rest,
          verified_of (totp_of (data r)) = [] ->
          verified_of (phone_of (data r)) = s :: rest ->
          exists ms,
            Eff.result (checkTwoFactorRequirements cfg sb)
            = Eff.Returned (required (method "sms" s) ms)
            /\ getMostTrustedTwoFactorMethod (Some ms)
               = Some (method "sms" s)).
Proof.
  intros cfg sb r On T Er.
  rewrite (check_on_ok cfg sb r On T Er). unfold Eff.result, snd.
  split; [|split].
  - intros a s Ea Es. rewrite collectMethods_spec, Ea, Es. reflexivity.
  - intros a rest Ea. exists (collectMethods (data r)).
    rewrite mostTrusted_collect, Ea. split; reflexivity.
  - intros s rest Ea Es. exists (collectMethods (data r)).
    rewrite mostTrusted_collect, Ea, Es. split; reflexivity.
Qed.

(** C2 on a user with a pending and a verified authenticator app and a
    verified phone. *)
Lemma C2_witness :
  switched_on config_on
  /\ Eff.result (checkTwoFactorRequirements config_on (client listing))
     = Eff.Returned (required (method "authenticator" app)
                       [method "authenticator" app; method "sms" mobile]).
Proof.
  assert (On : switched_on config_on)
    by (split; [reflexivity | discriminate]).
  split; [exact On|].
  exact (proj1 (C2_authenticator_before_sms config_on (client listing) listing
                  On eq_refl eq_refl)
           app mobile eq_refl eq_refl).
Defined.

(** C5: whenever the listing call is made and answers with an error, the
    resolver throws "Failed to check 2FA status"; it returns nothing, in
    particular not "not required". *)
Theorem C5_listing_error_is_fatal :
  forall (cfg : TAuthConfig) (sb : SupabaseClient)
         (r : Response FactorsData) (e : AuthError),
    consulted (checkTwoFactorRequirements cfg sb) ->
    mfa_listFactors sb = Eff.Returned r -> error r = Some e ->
    Eff.result (checkTwoFactorRequirements cfg sb)
    = Eff.Thrown "Failed to check 2FA status"
    /\ forall req,
        Eff.result (checkTwoFactorRequirements cfg sb) <> Eff.Returned req.
Proof.
  intros cfg sb r e C T Er.
  destruct (switched_on_dec cfg) as [On|Off].
  - rewrite (check_on_error cfg sb r e On T Er). simpl.
    split; [reflexivity | discriminate].
  - unfold consulted in C. rewrite (check_off cfg sb Off) in C.
    contradiction.
Qed.

(** C5 on a client whose listing call fails. *)
Lemma C5_witness :
  consulted (checkTwoFactorRequirements config_on (client listing_failed))
  /\ Eff.result (checkTwoFactorRequirements config_on (client listing_failed))
     = Eff.Thrown "Failed to check 2FA status".
Proof.
  assert (C : consulted
                (checkTwoFactorRequirements config_on (client listing_failed)))
    by (left; reflexivity).
  split; [exact C|].
  exact (proj1 (C5_listing_error_is_fatal config_on (client listing_failed)
                  listing_failed {| message := "network" |} C eq_refl eq_refl)).
Defined.

Lemma check_same_verified (cfg : TAuthConfig) (sb sb' : SupabaseClient)
    (r r' : Response FactorsData) :
  mfa_listFactors sb = Eff.Returned r -> error r = None ->
  mfa_listFactors sb' = Eff.Returned r' -> error r' = None ->
  verified_of (totp_of (data r)) = verified_of (totp_of (data r')) ->
  verified_of (phone_of (data r)) = verified_of (phone_of (data r')) ->
  checkTwoFactorRequirements cfg sb = checkTwoFactorRequirements cfg sb'.
Proof.
  intros T Er T' Er' Et Ep.
  destruct (switched_on_dec cfg) as [On|Off].
  - rewrite (check_on_ok cfg sb r On T Er), (check_on_ok cfg sb' r' On T' Er').
    rewrite !collectMethods_spec, Et, Ep. reflexivity.
  - now rewrite !check_off.
Qed.

Example pending_factors_only :
  checkTwoFactorRequirements config_on
    (client {| data := Some {| totp := Some [app_pending]; phone := Some [] |};
               error := None |})
  = ([Eff.Provider "auth.mfa.listFactors"], Eff.Returned notRequired).
Proof. reflexivity. Qed.

(** C6: the resolver answers "not required" without consulting the provider
    when 2FA is disabled or no method is enabled, whatever the user has
    enrolled; once the listing call has answered without error it answers
    "not required" when no factor is verified and "required" otherwise,
    looking at the verified factors only; and it returns "not required" in
    exactly these cases. *)
Theorem C6_not_required_cases :
  forall (cfg : TAuthConfig) (sb : SupabaseClient),
    (tfa_enabled (twoFactorAuth cfg) = false ->
     checkTwoFactorRequirements cfg sb = ([], Eff.Returned notRequired))
    /\ (filter cm_enabled (tfa_methods (twoFactorAuth cfg)) = [] ->
        checkTwoFactorRequirements cfg sb = ([], Eff.Returned notRequired))
    /\ (forall r,
          switched_on cfg ->
          mfa_listFactors sb = Eff.Returned r -> error r = None ->
          (verified_of (totp_of (data r)) = []
           /\ verified_of (phone_of (data r)) = [] ->
           Eff.result (checkTwoFactorRequirements cfg sb)
           = Eff.Returned notRequired)
          /\ (~ (verified_of (totp_of (data r)) = []
                 /\ verified_of (phone_of (data r)) = []) ->
              exists req,
                Eff.result (checkTwoFactorRequirements cfg sb) = Eff.Returned req
                /\ requiresTwoFactor req = true)
          /\ (forall sb' r',
                mfa_listFactors sb' = Eff.Returned r' -> error r' = None ->
                verified_of (totp_of (data r')) = verified_of (totp_of (data r)) ->
                verified_of (phone_of (data r')) = verified_of (phone_of (data r)) ->
                checkTwoFactorRequirements cfg sb'
                = checkTwoFactorRequirements cfg sb))
    /\ (Eff.result (checkTwoFactorRequirements cfg sb) = Eff.Returned notRequired
        <-> tfa_enabled (twoFactorAuth cfg) = false
            \/ filter cm_enabled (tfa_methods (twoFactorAuth cfg)) = []
            \/ exists r,
                 mfa_listFactors sb = Eff.Returned r /\ error r = None
                 /\ verified_of (totp_of (data r)) = []
                 /\ verified_of (phone_of (data r)) = [])
    /\ (forall req,
          Eff.result (checkTwoFactorRequirements cfg sb) = Eff.Returned req ->
          req = notRequired \/ requiresTwoFactor req = true).
Proof.
  intros cfg sb.
  assert (Off1 : tfa_enabled (twoFactorAuth cfg) = false -> ~ switched_on cfg).
  { intros E [E' _]. congruence. }
  assert (Off2 : filter cm_enabled (tfa_methods (twoFactorAuth cfg)) = [] ->
                 ~ switched_on cfg).
  { intros E [_ N]. congruence. }
  split; [|split; [|split; [|split]]].
  - intros E. apply check_off. auto.
  - intros E. apply check_off. auto.
  - intros r On T Er. rewrite (check_on_ok cfg sb r On T Er).
    unfold Eff.result, snd. split; [|split].
    + intros [-> ->]. reflexivity.
    + intros N.
      destruct (verified_of (totp_of (data r))) as [|a ?].
      * destruct (verified_of (phone_of (data r))) as [|s ?].
        -- exfalso. apply N. split; reflexivity.
        -- eexists. split; reflexivity.
      * eexists. split; reflexivity.
    + intros sb' r' T' Er' Et Ep.
      rewrite <- (check_on_ok cfg sb r On T Er).
      now apply (check_same_verified cfg sb' sb r' r).
  - split.
    + intros R.
      destruct (check_cases cfg sb)
        as [[Off _]|[[_ (m & _ & E)]|[[_ (r & e & _ & _ & E)]|[_ (r & T & Er & E)]]]].
      * destruct (tfa_enabled (twoFactorAuth cfg)) eqn:En; [|now left].
        right. left.
        destruct (filter cm_enabled (tfa_methods (twoFactorAuth cfg))) eqn:F;
          [reflexivity|].
        exfalso. apply Off. split; [assumption|]. rewrite F. discriminate.
      * rewrite E in R. discriminate.
      * rewrite E in R. discriminate.
      * right. right. exists r. rewrite E in R. unfold Eff.result, snd in R.
        destruct (verified_of (totp_of (data r))) as [|a ?];
          [destruct (verified_of (phone_of (data r))) as [|s ?]|];
          try discriminate.
        repeat split; assumption.
    + intros [E|[E|(r & T & Er & Et & Ep)]].
      * rewrite check_off; auto.
      * rewrite check_off; auto.
      * destruct (switched_on_dec cfg) as [On|Off].
        -- rewrite (check_on_ok cfg sb r On T Er), Et, Ep. reflexivity.
        -- now rewrite check_off.
  - intros req R.
    destruct (check_cases cfg sb)
      as [[_ E]|[[_ (m & _ & E)]|[[_ (r & e & _ & _ & E)]|[_ (r & _ & _ & E)]]]];
      rewrite E in R; unfold Eff.result, snd in R; try discriminate.
    + left. congruence.
    + injection R as <-.
      destruct (verified_of (totp_of (data r))) as [|a ?];
        [destruct (verified_of (phone_of (data r))) as [|s ?]|]; auto.
Qed.

(** C6 with 2FA disabled and a user who has verified factors. *)
Lemma C6_witness :
  tfa_enabled (twoFactorAuth config_off) = false
  /\ checkTwoFactorRequirements config_off (client listing)
     = ([], Eff.Returned notRequired).
Proof.
  split; [reflexivity|].
  exact (proj1 (C6_not_required_cases config_off (client listing)) eq_refl).
Defined.

(** C7: when the resolver answers "required", the default factor id it
    carries is the factor id of one of the available methods it carries, and
    every available method is a verified factor of the provider's listing,
    filed under the kind of the list it was found in. *)
Theorem C7_methods_come_from_listing :
  forall (cfg : TAuthConfig) (sb : SupabaseClient) (req : TwoFactorRequirement),
    Eff.result (checkTwoFactorRequirements cfg sb) = Eff.Returned req ->
    requiresTwoFactor req = true ->
    exists fid ms r,
      factorId req = Some fid /\ availableMethods req = Some ms
      /\ mfa_listFactors sb = Eff.Returned r
      /\ (exists m, In m ms /\ method_factorId m = fid)
      /\ forall m, In m ms ->
           exists f l,
             In f l /\ isVerified f = true /\ method_factorId m = id f
             /\ ((method_type m = "authenticator" /\ totp_of (data r) = Some l)
                 \/ (method_type m = "sms" /\ phone_of (data r) = Some l)).
Proof.
  intros cfg sb req R Req.
  destruct (check_cases cfg sb)
    as [[_ E]|[[_ (m & _ & E)]|[[_ (r & e & _ & _ & E)]|[_ (r & T & _ & E)]]]];
    rewrite E in R; unfold Eff.result, snd in R; try discriminate.
  - injection R as <-. discriminate.
  - injection R as <-.
    assert (Src : forall m, In m (collectMethods (data r)) ->
              exists f l,
                In f l /\ isVerified f = true /\ method_factorId m = id f
                /\ ((method_type m = "authenticator"
                     /\ totp_of (data r) = Some l)
                    \/ (method_type m = "sms" /\ phone_of (data r) = Some l))).
    { intros m. rewrite collectMethods_spec, in_app_iff, !in_map_iff.
      intros [(f & <- & Hf)|(f & <- & Hf)];
        apply in_firstn, verified_of_in in Hf; destruct Hf as (l & El & Hl & V);
        exists f, l; simpl; auto 6. }
    destruct (verified_of (totp_of (data r))) as [|a ta] eqn:Et.
    + destruct (verified_of (phone_of (data r))) as [|s ts] eqn:Ep;
        [discriminate|].
      exists (id s), (collectMethods (data r)), r.
      repeat split; auto.
      exists (method "sms" s). split; [|reflexivity].
      rewrite collectMethods_spec, Et, Ep. simpl. auto.
    + exists (id a), (collectMethods (data r)), r.
      repeat split; auto.
      exists (method "authenticator" a). split; [|reflexivity].
      rewrite collectMethods_spec, Et. simpl. auto.
Qed.

(** C7 on the sample user. *)
Lemma C7_witness :
  exists fid ms,
    factorId (required (method "authenticator" app)
                [method "authenticator" app; method "sms" mobile]) = Some fid
    /\ exists m, In m ms /\ method_factorId m = fid.
Proof.
  destruct (C7_methods_come_from_listing config_on (client listing)
              (required (method "authenticator" app)
                 [method "authenticator" app; method "sms" mobile])
              eq_refl eq_refl)
    as (fid & ms & r & F & _ & _ & M & _).
  exists fid, ms. split; assumption.
Defined.

(** C9: on a non-empty list of methods that are all of kind "authenticator"
    or "sms", [getMostTrustedTwoFactorMethod] returns one of them; the
    methods the resolver collects are all of these two kinds, so its
    "No default 2FA method found" branch is never taken: when the listing
    call returns, the only exception the resolver throws is the one for a
    listing error. *)
Theorem C9_default_always_found :
  (forall ms : list TMethod,
      ms <> [] -> Forall recognised ms ->
      exists m, getMostTrustedTwoFactorMethod (Some ms) = Some m /\ In m ms)
    /\ (forall d, Forall recognised (collectMethods d))
    /\ (forall d, collectMethods d <> [] ->
                  getMostTrustedTwoFactorMethod (Some (collectMethods d)) <> None)
    /\ (forall cfg sb r msg,
          mfa_listFactors sb = Eff.Returned r ->
          Eff.result (checkTwoFactorRequirements cfg sb) = Eff.Thrown msg ->
          msg = "Failed to check 2FA status" /\ error r <> None).
Proof.
  split; [|split; [|split]].
  - apply mostTrusted_recognised.
  - apply collectMethods_recognised.
  - intros d Hd.
    destruct (mostTrusted_recognised (collectMethods d) Hd
                (collectMethods_recognised d)) as (m & E & _).
    congruence.
  - intros cfg sb r msg T R.
    destruct (check_cases cfg sb)
      as [[_ E]|[[_ (m & T' & E)]|[[_ (r' & e & T' & Er & E)]|[_ (r' & _ & _ & E)]]]];
      rewrite E in R; unfold Eff.result, snd in R; try discriminate.
    + congruence.
    + injection R as <-. split; [reflexivity|]. congruence.
Qed.

(** C9 on the two methods of the sample user. *)
Lemma C9_witness :
  exists m,
    getMostTrustedTwoFactorMethod
      (Some [method "sms" mobile; method "authenticator" app]) = Some m
    /\ In m [method "sms" mobile; method "authenticator" app].
Proof.
  refine (proj1 C9_default_always_found
            [method "sms" mobile; method "authenticator" app] _ _).
  - discriminate.
  - constructor; [now right | constructor; [now left | constructor]].
Defined.

End TwoFactor.

(* ================================================================== *)
(** * The matcher agrees with the declarative semantics *)
(* ================================================================== *)

Section RegexFacts.

Import Regex.

Lemma append_empty (s1 s2 : string) : s1 ++ s2 = "" -> s1 = "" /\ s2 = "".
Proof. destruct s1; simpl; [auto | discriminate]. Qed.

Lemma append_empty_r (s : string) : s ++ "" = s.
Proof. induction s as [|c s IH]; simpl; [reflexivity | now rewrite IH]. Qed.

Lemma length_append (s1 s2 : string) :
  String.length (s1 ++ s2) = (String.length s1 + String.length s2)%nat.
Proof. induction s1 as [|c s1 IH]; simpl; [reflexivity | now rewrite IH]. Qed.

Lemma every_append (p : ascii -> bool) (s1 s2 : string) :
  Js.every p (s1 ++ s2) = Js.every p s1 && Js.every p s2.
Proof.
  induction s1 as [|c s1 IH]; simpl; [reflexivity|].
  now rewrite IH, andb_assoc.
Qed.

(** A string of at least [n] characters splits after its first [n]. *)
Lemma split_at (n : nat) (s : string) :
  (n <= String.length s)%nat ->
  exists s1 s2, s = s1 ++ s2 /\ String.length s1 = n.
Proof.
  revert s. induction n as [|n IH]; intros s H.
  - exists "", s. auto.
  - destruct s as [|c s]; simpl in H; [lia|].
    destruct (IH s ltac:(lia)) as (s1 & s2 & -> & L).
    exists (String c s1), s2. simpl. auto.
Qed.

Lemma nullable_Matches (r : re) : nullable r = true <-> Matches r "".
Proof.
  split.
  - induction r as [| |p|a IHa b IHb|a IHa b IHb|a _]; simpl; intros H;
      try discriminate.
    + constructor.
    + apply andb_true_iff in H as [Ha Hb].
      change "" with ("" ++ ""). constructor; auto.
    + apply orb_true_iff in H as [Ha|Hb];
        [apply MAltL | apply MAltR]; auto.
    + constructor.
  - remember "" as w eqn:E. intros M.
    induction M as [|p c H|a b s1 s2 _ IH1 _ IH2|a b s _ IH|a b s _ IH|a
                    |a s1 s2 _ _ _ _]; simpl; auto; try discriminate.
    + apply append_empty in E as [-> ->]. now rewrite IH1, IH2.
    + rewrite IH; auto.
    + rewrite IH; auto using orb_true_r.
Qed.

Lemma Matches_Void (s : string) : ~ Matches Void s.
Proof. intros M. inversion M. Qed.

Lemma Matches_Eps (s : string) : Matches Eps s <-> s = "".
Proof.
  split; [intros M; now inversion M | intros ->; constructor].
Qed.

Lemma Matches_Class (p : ascii -> bool) (s : string) :
  Matches (Class p) s <-> exists c, s = String c "" /\ p c = true.
Proof.
  split.
  - intros M. inversion M; subst. eauto.
  - intros (c & -> & H). now constructor.
Qed.

Lemma Matches_Cat (a b : re) (s : string) :
  Matches (Cat a b) s
  <-> exists s1 s2, s = s1 ++ s2 /\ Matches a s1 /\ Matches b s2.
Proof.
  split.
  - intros M. inversion M; subst. eauto.
  - intros (s1 & s2 & -> & Ha & Hb). now constructor.
Qed.

Lemma Matches_Alt (a b : re) (s : string) :
  Matches (Alt a b) s <-> Matches a s \/ Matches b s.
Proof.
  split.
  - intros M. inversion M; subst; auto.
  - intros [H|H]; [apply MAltL | apply MAltR]; assumption.
Qed.

Lemma deriv_sound (c : ascii) (r : re) :
  forall s, Matches (deriv c r) s -> Matches r (String c s).
Proof.
  induction r as [| |p|a IHa b IHb|a IHa b IHb|a IHa]; simpl; intros s M.
  - now apply Matches_Void in M.
  - now apply Matches_Void in M.
  - destruct (p c) eqn:P; [|now apply Matches_Void in M].
    apply Matches_Eps in M as ->. now constructor.
  - destruct (nullable a) eqn:N.
    + apply Matches_Alt in M as [M|M].
      * apply Matches_Cat in M as (s1 & s2 & -> & Ma & Mb).
        change (String c (s1 ++ s2)) with (String c s1 ++ s2).
        constructor; auto.
      * change (String c s) with ("" ++ String c s).
        constructor; [now apply nullable_Matches | auto].
    + apply Matches_Cat in M as (s1 & s2 & -> & Ma & Mb).
      change (String c (s1 ++ s2)) with (String c s1 ++ s2).
      constructor; auto.
  - apply Matches_Alt in M as [M|M]; [apply MAltL | apply MAltR]; auto.
  - apply Matches_Cat in M as (s1 & s2 & -> & Ma & Mb).
    change (String c (s1 ++ s2)) with (String c s1 ++ s2).
    constructor; auto.
Qed.

Lemma deriv_complete (c : ascii) (r : re) (w : string) :
  Matches r w -> forall s, w = String c s -> Matches (deriv c r) s.
Proof.
  intros M.
  induction M as [|p d H|a b s1 s2 Ma IH1 Mb IH2|a b s0 _ IH|a b s0 _ IH|a
                  |a s1 s2 Ma IH1 Ms IH2]; intros s E; simpl.
  - discriminate.
  - injection E as -> <-. rewrite H. constructor.
  - destruct s1 as [|d s1']; simpl in E.
    + apply nullable_Matches in Ma. rewrite Ma. apply MAltR. auto.
    + injection E as -> <-.
      assert (C : Matches (Cat (deriv c a) b) (s1' ++ s2))
        by (constructor; auto).
      destruct (nullable a); [now apply MAltL | exact C].
  - apply MAltL. auto.
  - apply MAltR. auto.
  - discriminate.
  - destruct s1 as [|d s1']; simpl in E.
    + apply (IH2 s E).
    + injection E as -> <-. constructor; auto.
Qed.

Lemma deriv_Matches (c : ascii) (r : re) (s : string) :
  Matches (deriv c r) s <-> Matches r (String c s).
Proof.
  split; [apply deriv_sound | intros M; now apply (deriv_complete c r _ M)].
Qed.

(** The derivative matcher decides membership. *)
Lemma test_Matches (r : re) (s : string) : test r s = true <-> Matches r s.
Proof.
  revert r. induction s as [|c s IH]; intros r; simpl.
  - apply nullable_Matches.
  - rewrite IH. apply deriv_Matches.
Qed.

Lemma Matches_times_class (p : ascii -> bool) (n : nat) (s : string) :
  Matches (times n (Class p)) s
  <-> String.length s = n /\ Js.every p s = true.
Proof.
  revert s. induction n as [|n IH]; intros s; simpl.
  - rewrite Matches_Eps. split.
    + intros ->. auto.
    + intros [L _]. now destruct s.
  - rewrite Matches_Cat. split.
    + intros (s1 & s2 & -> & M1 & M2).
      apply Matches_Class in M1 as (c & -> & P). apply IH in M2 as [L E].
      simpl. now rewrite L, P, E.
    + intros [L E]. destruct s as [|c s]; [discriminate|].
      simpl in L, E. apply andb_true_iff in E as [P E].
      exists (String c ""), s. repeat split.
      * now apply Matches_Class; eauto.
      * apply IH. split; [lia | assumption].
Qed.

Lemma Matches_upto_class (p : ascii -> bool) (n : nat) (s : string) :
  Matches (upto n (Class p)) s
  <-> (String.length s <= n)%nat /\ Js.every p s = true.
Proof.
  revert s. induction n as [|n IH]; intros s; simpl.
  - rewrite Matches_Eps. split.
    + intros ->. auto.
    + intros [L _]. destruct s; [reflexivity | simpl in L; lia].
  - rewrite Matches_Alt, Matches_Eps, Matches_Cat. split.
    + intros [->|(s1 & s2 & -> & M1 & M2)].
      * simpl. split; [lia | reflexivity].
      * apply Matches_Class in M1 as (c & -> & P). apply IH in M2 as [L E].
        simpl. rewrite P, E. split; [lia | reflexivity].
    + intros [L E]. destruct s as [|c s]; [now left|]. right.
      simpl in L, E. apply andb_true_iff in E as [P E].
      exists (String c ""), s. repeat split.
      * now apply Matches_Class; eauto.
      * apply IH. split; [lia | assumption].
Qed.

(** [[p]{lo,hi}] matches the strings of [lo] to [hi] characters of [p]. *)
Lemma Matches_between_class (p : ascii -> bool) (lo hi : nat) (s : string) :
  (lo <= hi)%nat ->
  Matches (between lo hi (Class p)) s
  <-> (lo <= String.length s <= hi)%nat /\ Js.every p s = true.
Proof.
  intros Hle. unfold between. rewrite Matches_Cat. split.
  - intros (s1 & s2 & -> & M1 & M2).
    apply Matches_times_class in M1 as [L1 E1].
    apply Matches_upto_class in M2 as [L2 E2].
    rewrite length_append, every_append, E1, E2. split; [lia | reflexivity].
  - intros [L E].
    destruct (split_at lo s ltac:(lia)) as (s1 & s2 & -> & L1).
    rewrite length_append in L. rewrite every_append in E.
    apply andb_true_iff in E as [E1 E2].
    exists s1, s2. repeat split.
    + now apply Matches_times_class.
    + apply Matches_upto_class. split; [lia | assumption].
Qed.

End RegexFacts.

(* ================================================================== *)
(** * Validation schemas *)
(* ================================================================== *)

Section Validation.

Import AuthValidation.

(** A string is valid for a string schema when it passes every check. *)
Lemma isValid_string (schema : ZodString) (s : string) :
  isValid (validation_of (safeParse schema (JString s)))
  = forallb (fun c => passes c s) schema.
Proof.
  unfold validation_of, safeParse, issues_of. simpl isValid.
  induction schema as [|c cs IH]; simpl; [reflexivity|].
  destruct (passes c s); simpl; [exact IH | reflexivity].
Qed.

Lemma lit_char (c d : ascii) : Ascii.eqb c d = true <-> d = c.
Proof. rewrite Ascii.eqb_eq. split; congruence. Qed.

(** The strings [/^\+[1-9]\d{1,14}$/] matches. *)
Lemma phonePattern_spec (s : string) :
  Regex.test phonePattern s = true
  <-> Reference.plus_nonzero_then_1_to_14_digits s.
Proof.
  rewrite test_Matches. unfold phonePattern, Regex.lit, Regex.range, Regex.digit,
    Reference.plus_nonzero_then_1_to_14_digits.
  rewrite Matches_Cat. split.
  - intros (s1 & s2 & -> & M1 & M2).
    apply Matches_Class in M1 as (c & -> & P). apply lit_char in P as ->.
    apply Matches_Cat in M2 as (t1 & t2 & -> & N1 & N2).
    apply Matches_Class in N1 as (d & -> & Q).
    apply Matches_between_class in N2 as [L E]; [|lia].
    exists d, t2. repeat split; auto; lia.
  - intros (d & ds & -> & Q & L & E).
    exists "+", (String d ds). repeat split.
    + apply Matches_Class. exists "+"%char. split; reflexivity.
    + apply Matches_Cat. exists (String d ""), ds. repeat split.
      * apply Matches_Class. exists d. split; [reflexivity | exact Q].
      * apply Matches_between_class; [lia|]. split; [lia | exact E].
Qed.

Lemma validatePhoneNumber_spec (s : string) :
  isValid (validatePhoneNumber (JString s)) = true
  <-> Reference.plus_nonzero_then_1_to_14_digits s.
Proof.
  unfold validatePhoneNumber. rewrite isValid_string. simpl forallb.
  rewrite andb_true_r, andb_true_iff, phonePattern_spec. split.
  - tauto.
  - intros H. split; [|exact H].
    destruct H as (d & ds & -> & _). apply Z.leb_le.
    unfold Js.length. simpl String.length. lia.
Qed.

Lemma nonzero_digit_is_digit (c : ascii) :
  Reference.is_nonzero_digit c = true -> Reference.is_digit c = true.
Proof.
  unfold Reference.is_nonzero_digit, Reference.is_digit.
  rewrite !andb_true_iff, !Nat.leb_le. lia.
Qed.

(** C8, as stated, fails: "+01" is a plus sign followed by two digits, and
    the validator reports it invalid. *)
Lemma C8_leading_zero_counterexample :
  Reference.plus_and_2_to_15_digits "+01"
  /\ isValid (validatePhoneNumber (JString "+01")) = false.
Proof.
  split; [|reflexivity].
  exists "01". repeat split; simpl; lia.
Qed.

(** C8, amended: the validator reports valid exactly the strings made of a
    plus sign, a digit from 1 to 9 and 1 to 14 further digits; each of them
    is a plus sign followed by 2 to 15 digits; a string without the leading
    plus sign is reported invalid; "+1234567890" is accepted and
    "1234567890" is not. *)
Theorem C8_phone_shape :
  (forall s, isValid (validatePhoneNumber (JString s)) = true
             <-> Reference.plus_nonzero_then_1_to_14_digits s)
  /\ (forall s, Reference.plus_nonzero_then_1_to_14_digits s ->
                Reference.plus_and_2_to_15_digits s)
  /\ (forall s, (forall rest, s <> String "+" rest) ->
                isValid (validatePhoneNumber (JString s)) = false)
  /\ isValid (validatePhoneNumber (JString "+1234567890")) = true
  /\ isValid (validatePhoneNumber (JString "1234567890")) = false.
Proof.
  split; [|split; [|split; [|split]]].
  - apply validatePhoneNumber_spec.
  - intros s (d & ds & -> & Q & L & E). exists (String d ds).
    split; [reflexivity|]. simpl. split; [lia|].
    unfold Reference.all_digits in *. simpl.
    now rewrite (nonzero_digit_is_digit d Q), E.
  - intros s N.
    destruct (isValid (validatePhoneNumber (JString s))) eqn:V; [|reflexivity].
    apply validatePhoneNumber_spec in V as (d & ds & -> & _).
    now contradiction (N (String d ds)).
  - reflexivity.
  - reflexivity.
Qed.

(** C8 on the number without its plus sign. *)
Lemma C8_witness :
  (forall rest, "1234567890" <> String "+" rest)
  /\ isValid (validatePhoneNumber (JString "1234567890")) = false.
Proof.
  assert (N : forall rest, "1234567890" <> String "+" rest)
    by (intros rest; discriminate).
  split; [exact N|].
  exact (proj1 (proj2 (proj2 C8_phone_shape)) "1234567890" N).
Defined.

Example code_validator :
  isValid (validateTwoFactorCode (JString "123456")) = true
  /\ isValid (validateTwoFactorCode (JString "12a456")) = false
  /\ isValid (validateTwoFactorCode (JString "12345")) = false.
Proof. repeat split. Qed.

End Validation.

(* ================================================================== *)
(** * Route handlers *)
(* ================================================================== *)

Section RouteFacts.

Import AuthValidation Routes Requests.

(** Paths of a handler on which the awaited call is never made. *)
Ltac not_reached :=
  try (let H := fresh in intros H; exfalso; intuition congruence).

Lemma validateFormData_data (zod_email : string -> bool) (b : body)
    (d : AuthSchema) :
  fd_data (validateFormData zod_email b) = Some d ->
  b = BodyObject (as_email d) (as_password d).
Proof.
  unfold validateFormData, authSchema_safeParse.
  destruct b as [e p| |ty]; [|discriminate|discriminate].
  destruct (issues_of (emailSchema zod_email) e
            ++ issues_of passwordSchema p)%list; simpl; [|discriminate].
  intros [= <-]. reflexivity.
Qed.

(** Once the reset call is made, the answer of the forgot-password handler
    depends only on whether the call returned or threw. *)
Lemma forgot_reached (zod_email : string -> bool)
    (authRateLimit : option (string -> Eff.outcome bool))
    (getClientIp : Request -> string)
    (createClient : Eff.outcome ServerClient) (request : Request) :
  let run := forgotPassword_POST zod_email authRateLimit getClientIp
               createClient request in
  In reset_call (Eff.trace run) ->
  exists supabase email password,
    json request = Eff.Returned (BodyObject email password)
    /\ createClient = Eff.Returned supabase
    /\ match resetPasswordForEmail supabase email (redirectTo request) with
       | Eff.Returned _ => Eff.result run = Eff.Returned json_ok
       | Eff.Thrown _ => Eff.result run = Eff.Returned unexpected
       end.
Proof.
  unfold forgotPassword_POST, limit, destructure_email, Eff.await,
    Eff.try_catch, Eff.bind, Eff.emit, Eff.ret, Eff.throw, Eff.trace,
    Eff.result, reset_call, redirectTo.
  destruct authRateLimit as [limiter|]; [destruct (limiter _) as [[|]|]|];
    destruct (json request) as [[e p| |ty]|]; cbn -[validateEmail];
    not_reached.
  all: try destruct (isValid (validateEmail zod_email _)) eqn:V;
    try (cbn in V; discriminate); cbn -[validateEmail]; not_reached.
  all: destruct createClient as [sb|]; cbn -[validateEmail]; not_reached.
  all: intros _; exists sb, e, p; split; [reflexivity|]; split; [reflexivity|].
  all: destruct (resetPasswordForEmail sb e _) as [r|]; cbn;
    [destruct (Auth.error r)|]; reflexivity.
Qed.

(** Once the sign-up call is made, the answer of the sign-up handler is
    read off the provider's answer. *)
Lemma signup_reached (zod_email : string -> bool)
    (authRateLimit : option (string -> Eff.outcome bool))
    (createClient : Eff.outcome ServerClient)
    (AUTH_CONFIG : Auth.TAuthConfig) (request : Request) :
  let run := signup_POST zod_email authRateLimit createClient AUTH_CONFIG
               request in
  In signUp_call (Eff.trace run) ->
  exists supabase form,
    json request = Eff.Returned (BodyObject (as_email form) (as_password form))
    /\ createClient = Eff.Returned supabase
    /\ match signUp supabase form with
       | Eff.Returned r =>
           Eff.result run
           = Eff.Returned
               (if noIdentities (Auth.data r) then alreadyRegistered
                else match Auth.error r with
                     | Some authError => json_err (Auth.message authError) 400
                     | None => json_ok
                     end)
       | Eff.Thrown _ =>
           Eff.result run = Eff.Returned (json_err "Internal server error" 500)
       end.
Proof.
  unfold signup_POST, limit, Eff.await, Eff.try_catch, Eff.bind, Eff.emit,
    Eff.ret, Eff.throw, Eff.trace, Eff.result, signUp_call.
  destruct authRateLimit as [limiter|];
    [destruct (Auth.api_rate_limit_enabled AUTH_CONFIG);
     [destruct (limiter _) as [[|]|]|]|];
    destruct (json request) as [b|]; cbn -[validateFormData]; not_reached.
  all: destruct (fd_data (validateFormData zod_email b)) as [d|] eqn:D;
    [destruct (Js.truthy (fd_error (validateFormData zod_email b)))|];
    cbn -[validateFormData]; not_reached.
  all: destruct createClient as [sb|]; cbn -[validateFormData]; not_reached.
  all: intros _; exists sb, d; rewrite (validateFormData_data _ _ _ D) at 1;
    split; [reflexivity|]; split; [reflexivity|].
  all: destruct (signUp sb d) as [r|]; cbn; [|reflexivity].
  all: destruct (noIdentities (Auth.data r)); [reflexivity|].
  all: destruct (Auth.error r); reflexivity.
Qed.

Example reset_hides_provider_error :
  forgot_at provider_new_address
  = ([Eff.Provider "createClient"; reset_call;
      Eff.ConsoleError "Failed to send reset password email:"],
     Eff.Returned json_ok).
Proof. reflexivity. Qed.

(** C1, as stated, fails for sign-up: the same valid request reaches the
    provider call in both runs, and the handler answers 400 "This email is
    already registered" when the provider knows the address and 200 when it
    does not. *)
Lemma C1_signup_counterexample :
  In signUp_call (Eff.trace (signup_at provider_knowing_address))
  /\ In signUp_call (Eff.trace (signup_at provider_new_address))
  /\ Eff.result (signup_at provider_knowing_address)
     = Eff.Returned alreadyRegistered
  /\ Eff.result (signup_at provider_new_address) = Eff.Returned json_ok
  /\ Eff.result (signup_at provider_knowing_address)
     <> Eff.result (signup_at provider_new_address).
Proof.
  split; [right; left; reflexivity|].
  split; [right; left; reflexivity|].
  split; [reflexivity|]. split; [reflexivity|].
  vm_compute. discriminate.
Qed.

(** C1, amended: the forgot-password handler answers every request that
    reaches the provider call with the empty 200 response whatever the call
    returned, error or not (and with the fixed 500 response when the call
    threw); the sign-up handler answers a request that reaches the provider
    call with 400 "This email is already registered" when the provider
    reports a user without identities, otherwise with 400 and the provider's
    message on an error, and with the empty 200 response only when there is
    neither. *)
Theorem C1_reset_uniform_signup_not :
  forall (zod_email : string -> bool)
         (authRateLimit : option (string -> Eff.outcome bool))
         (getClientIp : Request -> string)
         (createClient : Eff.outcome ServerClient)
         (AUTH_CONFIG : Auth.TAuthConfig) (request : Request),
    (let run := forgotPassword_POST zod_email authRateLimit getClientIp
                  createClient request in
     In reset_call (Eff.trace run) ->
     exists supabase email password,
       json request = Eff.Returned (BodyObject email password)
       /\ createClient = Eff.Returned supabase
       /\ match resetPasswordForEmail supabase email (redirectTo request) with
          | Eff.Returned _ => Eff.result run = Eff.Returned json_ok
          | Eff.Thrown _ => Eff.result run = Eff.Returned unexpected
          end)
    /\ (let run := signup_POST zod_email authRateLimit createClient AUTH_CONFIG
                     request in
        In signUp_call (Eff.trace run) ->
        exists supabase form,
          json request
          = Eff.Returned (BodyObject (as_email form) (as_password form))
          /\ createClient = Eff.Returned supabase
          /\ match signUp supabase form with
             | Eff.Returned r =>
                 Eff.result run
                 = Eff.Returned
                     (if noIdentities (Auth.data r) then alreadyRegistered
                      else match Auth.error r with
                           | Some authError =>
                               json_err (Auth.message authError) 400
                           | None => json_ok
                           end)
             | Eff.Thrown _ =>
                 Eff.result run
                 = Eff.Returned (json_err "Internal server error" 500)
             end).
Proof.
  intros. split; [apply forgot_reached | apply signup_reached].
Qed.

(** C1 on a reset request for an address the provider does not know. *)
Lemma C1_witness :
  In reset_call (Eff.trace (forgot_at provider_new_address))
  /\ Eff.result (forgot_at provider_new_address) = Eff.Returned json_ok.
Proof.
  assert (R : In reset_call (Eff.trace (forgot_at provider_new_address)))
    by (right; left; reflexivity).
  split; [exact R|].
  destruct (proj1 (C1_reset_uniform_signup_not any_shape None
                     (fun _ => "203.0.113.7")
                     (Eff.Returned provider_new_address)
                     Factors.config_on form) R)
    as (sb & email & password & J & C & A).
  injection J as <- <-. injection C as <-. exact A.
Defined.

End RouteFacts.

(* ================================================================== *)
(** * Device confidence: levels and histories *)
(* ================================================================== *)

Section DeviceConfidenceMore.

Import Js Auth Samples.

(** Without the device name a session earns at most 55 points. *)
Lemma sessionScore_without_name (current : TDeviceInfo) (session : TDeviceSession) :
  strict_equal (device_name (device session)) (device_name current) = false ->
  sessionScore current session <= 55.
Proof.
  intros H. rewrite sessionScore_reference. unfold Reference.session_score.
  rewrite same_strict_eq, H.
  change (Reference.weight 30 false) with 0.
  repeat match goal with
         | |- context [Reference.weight ?w ?b] =>
             let B := fresh in
             assert (B : 0 <= Reference.weight w b <= w)
               by (apply weight_bounds; lia);
             generalize dependent (Reference.weight w b); intros
         end.
  lia.
Qed.

Lemma sessionScore_without_os (current : TDeviceInfo) (session : TDeviceSession) :
  is_truthy (os current) = false -> sessionScore current session <= 65.
Proof.
  intros H. rewrite sessionScore_reference. unfold Reference.session_score.
  rewrite <- (truthy_nonempty (os current)), H, andb_false_r. cbn [andb].
  change (Reference.weight 20 false) with 0.
  repeat match goal with
         | |- context [Reference.weight ?w ?b] =>
             let B := fresh in
             assert (B : 0 <= Reference.weight w b <= w)
               by (apply weight_bounds; lia);
             generalize dependent (Reference.weight w b); intros
         end.
  lia.
Qed.

Lemma high_iff (z : Z) : getConfidenceLevel z = high <-> 70 <= z.
Proof.
  unfold getConfidenceLevel.
  destruct (z >=? 70) eqn:A; [|destruct (z >=? 40) eqn:B]; split; intros H;
    try discriminate; try reflexivity; lia.
Qed.

(** X1: on a non-empty history the level is "high" only if a stored session
    has the very device name of the login, and that session carries the
    score. *)
Theorem high_needs_device_name :
  forall (s : TDeviceSession) (rest : list TDeviceSession)
         (current : TDeviceInfo) (z : Z),
    calculateDeviceConfidence (Some (s :: rest)) current = Num z ->
    getConfidenceLevel z = high ->
    exists session,
      In session (s :: rest)
      /\ device_name (device session) = device_name current
      /\ sessionScore current session = z.
Proof.
  intros s rest current z E H. apply high_iff in H.
  rewrite calculateDeviceConfidence_cons in E. injection E as <-.
  destruct (maximum_is_max (sessionScore current) s rest)
    as [(y & Hin & Hy) _].
  exists y. split; [exact Hin|]. split; [|now rewrite Hy].
  apply strict_equal_iff.
  destruct (strict_equal (device_name (device y)) (device_name current)) eqn:N;
    [reflexivity|].
  pose proof (sessionScore_without_name current y N). lia.
Qed.

(** X1 on the laptop seen before. *)
Lemma high_needs_device_name_witness :
  exists session,
    In session [seen laptop]
    /\ device_name (device session) = device_name laptop_later
    /\ sessionScore laptop_later session = 85.
Proof.
  exact (high_needs_device_name (seen laptop) [] laptop_later 85
           eq_refl eq_refl).
Defined.


(** X2: a login that reports no OS (absent or empty) scores at most 65
    against a non-empty history, so its level is never "high". *)
Theorem no_os_never_high :
  forall (s : TDeviceSession) (rest : list TDeviceSession)
         (current : TDeviceInfo),
    is_truthy (os current) = false ->
    exists z,
      calculateDeviceConfidence (Some (s :: rest)) current = Num z
      /\ z <= 65 /\ getConfidenceLevel z <> high.
Proof.
  intros s rest current H. eexists. split;
    [apply calculateDeviceConfidence_cons|].
  assert (B : Reference.maximum (sessionScore current) s rest <= 65).
  { destruct (maximum_is_max (sessionScore current) s rest)
      as [(y & _ & ->) _]. now apply sessionScore_without_os. }
  split; [exact B|]. rewrite high_iff. lia.
Qed.

(** X2 on a login without any attribute. *)
Lemma no_os_never_high_witness :
  exists z,
    calculateDeviceConfidence (Some [seen bare]) bare = Num z
    /\ z <= 65 /\ getConfidenceLevel z <> high.
Proof. exact (no_os_never_high (seen bare) [] bare eq_refl). Defined.


(** X3: the score does not depend on the order or multiplicity of the
    stored sessions, and a non-empty history that is extended never scores
    lower. *)
Theorem history_monotone :
  forall (h h' : list TDeviceSession) (current : TDeviceInfo),
    (h <> [] -> incl h h' ->
     exists z z',
       calculateDeviceConfidence (Some h) current = Num z
       /\ calculateDeviceConfidence (Some h') current = Num z'
       /\ z <= z')
    /\ (incl h h' -> incl h' h ->
        calculateDeviceConfidence (Some h) current
        = calculateDeviceConfidence (Some h') current).
Proof.
  intros h h' current.
  assert (M : forall a l b l',
             incl (a :: l) (b :: l') ->
             Reference.maximum (sessionScore current) a l
             <= Reference.maximum (sessionScore current) b l').
  { intros a l b l' I.
    destruct (maximum_is_max (sessionScore current) a l) as [(y & Hy & ->) _].
    destruct (maximum_is_max (sessionScore current) b l') as [_ U].
    apply U, I, Hy. }
  split.
  - intros N I. destruct h as [|a l]; [congruence|].
    destruct h' as [|b l']; [destruct (I a (or_introl eq_refl))|].
    do 2 eexists. split; [apply calculateDeviceConfidence_cons|].
    split; [apply calculateDeviceConfidence_cons|]. now apply M.
  - intros I I'. destruct h as [|a l], h' as [|b l']; try reflexivity.
    + destruct (I' b (or_introl eq_refl)).
    + destruct (I a (or_introl eq_refl)).
    + rewrite !calculateDeviceConfidence_cons. f_equal.
      pose proof (M a l b l' I). pose proof (M b l' a l I'). lia.
Qed.

(** X3 on a history that gains the matching laptop. *)
Lemma history_monotone_witness :
  exists z z',
    calculateDeviceConfidence (Some [seen phone_elsewhere]) laptop_later = Num z
    /\ calculateDeviceConfidence
         (Some [seen laptop; seen phone_elsewhere]) laptop_later = Num z'
    /\ z <= z'.
Proof.
  refine (proj1 (history_monotone [seen phone_elsewhere]
                   [seen laptop; seen phone_elsewhere] laptop_later) _ _).
  - discriminate.
  - intros x [<-|[]]. right. left. reflexivity.
Defined.


End DeviceConfidenceMore.

(* ================================================================== *)
(** * Code verification and factor lookup *)
(* ================================================================== *)

Section MfaFacts.

Import Js Auth Factors AuthMfa.

Ltac run_eff :=
  unfold Eff.await, Eff.bind, Eff.emit, Eff.ret, Eff.throw, Eff.trace,
    Eff.result; cbn.

Lemma verify_cases (sb : MfaClient) (fid code : string) :
  let run := verifyTwoFactorCode sb fid code in
  (exists m, challenge sb fid = Eff.Thrown m
             /\ run = ([challenge_call], Eff.Thrown m))
  \/ (exists c e, challenge sb fid = Eff.Returned c /\ error c = Some e
                  /\ run = ([challenge_call], Eff.Thrown (message e)))
  \/ (exists c, challenge sb fid = Eff.Returned c /\ error c = None
                /\ data c = None
                /\ fst run = [challenge_call]
                /\ exists m, snd run = Eff.Thrown m)
  \/ (exists c d,
        challenge sb fid = Eff.Returned c /\ error c = None /\ data c = Some d
        /\ ((exists m, verify sb fid (challenge_id d) code = Eff.Thrown m
                       /\ run = ([challenge_call; verify_call], Eff.Thrown m))
            \/ (exists v e,
                  verify sb fid (challenge_id d) code = Eff.Returned v
                  /\ error v = Some e
                  /\ run = ([challenge_call; verify_call],
                            Eff.Thrown (message e)))
            \/ (exists v,
                  verify sb fid (challenge_id d) code = Eff.Returned v
                  /\ error v = None
                  /\ run = ([challenge_call; verify_call], Eff.Returned tt)))).
Proof.
  unfold verifyTwoFactorCode, challenge_call, verify_call.
  destruct (challenge sb fid) as [c|m] eqn:C.
  - destruct (error c) as [e|] eqn:Ec.
    + right. left. exists c, e. run_eff. rewrite Ec. auto.
    + destruct (data c) as [d|] eqn:Dc.
      * right. right. right. exists c, d. repeat split; auto.
        destruct (verify sb fid (challenge_id d) code) as [v|m] eqn:V.
        -- destruct (error v) as [e|] eqn:Ev.
           ++ right. left. exists v, e. run_eff. rewrite Ec, Dc, V. cbn.
              rewrite Ev. auto.
           ++ right. right. exists v. run_eff. rewrite Ec, Dc, V. cbn.
              rewrite Ev. auto.
        -- left. exists m. run_eff. rewrite Ec, Dc, V. auto.
      * right. right. left. exists c. run_eff. rewrite Ec, Dc. cbn.
        repeat split; eauto.
  - left. exists m. run_eff. auto.
Qed.

(** X4: [verifyTwoFactorCode] returns normally exactly when the challenge
    and then the verification both answer without error; the verification
    is attempted only after a successful challenge, with that challenge's
    id; a rejected step throws the provider's own message. *)
Theorem verifyTwoFactorCode_outcomes :
  forall (sb : MfaClient) (fid code : string),
    let run := verifyTwoFactorCode sb fid code in
    (Eff.result run = Eff.Returned tt
     <-> exists c d v,
           challenge sb fid = Eff.Returned c /\ error c = None
           /\ data c = Some d
           /\ verify sb fid (challenge_id d) code = Eff.Returned v
           /\ error v = None)
    /\ (In verify_call (Eff.trace run)
        <-> exists c d,
              challenge sb fid = Eff.Returned c /\ error c = None
              /\ data c = Some d)
    /\ (forall c e,
          challenge sb fid = Eff.Returned c -> error c = Some e ->
          run = ([challenge_call], Eff.Thrown (message e)))
    /\ (forall c d v e,
          challenge sb fid = Eff.Returned c -> error c = None ->
          data c = Some d ->
          verify sb fid (challenge_id d) code = Eff.Returned v ->
          error v = Some e ->
          run = ([challenge_call; verify_call], Eff.Thrown (message e))).
Proof.
  intros sb fid code run.
  assert (NV : ~ In verify_call [challenge_call]).
  { intros [H|[]]. discriminate. }
  assert (IV : In verify_call [challenge_call; verify_call])
    by (right; left; reflexivity).
  pose proof (verify_cases sb fid code) as Cases. fold run in Cases.
  split; [|split; [|split]].
  - split.
    + intros R.
      destruct Cases
        as [(m & C & E)
           |[(c & e & C & Ec & E)
            |[(c & C & Ec & Dc & Et & m & Er)
             |(c & d & C & Ec & Dc
               & [(m & V & E)|[(v & e & V & Ev & E)|(v & V & Ev & E)]])]]];
        unfold Eff.result in R;
        try (rewrite E in R; discriminate); try congruence.
      exists c, d, v. auto.
    + intros (c & d & v & C & Ec & Dc & V & Ev).
      destruct Cases
        as [(m & C' & E)
           |[(c' & e & C' & Ec' & E)
            |[(c' & C' & Ec' & Dc' & Et & m & Er)
             |(c' & d' & C' & Ec' & Dc'
               & [(m & V' & E)|[(v' & e & V' & Ev' & E)|(v' & V' & Ev' & E)]])]]];
        try congruence.
      now rewrite E.
  - split.
    + intros R.
      destruct Cases
        as [(m & C & E)
           |[(c & e & C & Ec & E)
            |[(c & C & Ec & Dc & Et & m & Er)
             |(c & d & C & Ec & Dc & _)]]];
        unfold Eff.trace in R;
        try (rewrite E in R; now destruct (NV R));
        try (rewrite Et in R; now destruct (NV R)).
      exists c, d. auto.
    + intros (c & d & C & Ec & Dc).
      destruct Cases
        as [(m & C' & E)
           |[(c' & e & C' & Ec' & E)
            |[(c' & C' & Ec' & Dc' & Et & m & Er)
             |(c' & d' & C' & Ec' & Dc'
               & [(m & V' & E)|[(v' & e & V' & Ev' & E)|(v' & V' & Ev' & E)]])]]];
        try congruence; rewrite E; exact IV.
  - intros c e C Ec.
    destruct Cases
      as [(m & C' & E)
         |[(c' & e' & C' & Ec' & E)
          |[(c' & C' & Ec' & Dc' & Et & m & Er)
           |(c' & d' & C' & Ec' & _)]]]; try congruence.
  - intros c d v e C Ec Dc V Ev.
    destruct Cases
      as [(m & C' & E)
         |[(c' & e' & C' & Ec' & E)
          |[(c' & C' & Ec' & Dc' & Et & m & Er)
           |(c' & d' & C' & Ec' & Dc'
             & [(m & V' & E)|[(v' & e' & V' & Ev' & E)|(v' & V' & Ev' & E)]])]]];
      try congruence.
Qed.

(** X4 on a factor the provider does not know. *)
Lemma verifyTwoFactorCode_witness :
  verifyTwoFactorCode sample_client "totp-9" "123456"
  = ([challenge_call], Eff.Thrown "Factor not found").
Proof.
  exact (proj1 (proj2 (proj2 (verifyTwoFactorCode_outcomes sample_client
                                "totp-9" "123456")))
           _ {| message := "Factor not found" |} eq_refl eq_refl).
Defined.


Lemma getFactorIdForMethod_run (sb : MfaClient) (method : string)
    (r : Response ListFactorsData) :
  listFactors sb = Eff.Returned r ->
  getFactorIdForMethod sb method
  = ([Eff.Provider "auth.mfa.listFactors"],
     Eff.Returned (option_map mf_id (find (isFactorFor method) (factors_of r)))).
Proof.
  intros L. unfold getFactorIdForMethod, factors_of, Eff.await, Eff.bind,
    Eff.emit, Eff.ret. rewrite L. cbn.
  destruct (data r) as [d|]; [destruct (all d)|]; reflexivity.
Qed.

Lemma isFactorFor_true (method : string) (f : MfaFactor) :
  isFactorFor method f = true
  <-> mf_status f = "verified"
      /\ ((factor_type f = "totp" /\ method = "authenticator")
          \/ (factor_type f <> "totp" /\ method = "sms")).
Proof.
  unfold isFactorFor. rewrite andb_true_iff, String.eqb_eq.
  destruct (String.eqb_spec (factor_type f) "totp") as [T|T];
    rewrite String.eqb_eq; intuition congruence.
Qed.

(** X5: once the listing call returns, [getFactorIdForMethod] returns a
    value whatever error the answer carries: the id of a verified entry of
    the [all] list whose type is "totp" for the method "authenticator" and
    anything else for "sms", none exactly when no entry qualifies, and
    always none for any other method. *)
Theorem getFactorIdForMethod_spec :
  forall (sb : MfaClient) (method : string) (r : Response ListFactorsData),
    listFactors sb = Eff.Returned r ->
    exists answer,
      getFactorIdForMethod sb method
      = ([Eff.Provider "auth.mfa.listFactors"], Eff.Returned answer)
      /\ (forall i, answer = Some i ->
            exists f, In f (factors_of r) /\ mf_id f = i
                      /\ mf_status f = "verified"
                      /\ ((factor_type f = "totp" /\ method = "authenticator")
                          \/ (factor_type f <> "totp" /\ method = "sms")))
      /\ (answer = None <->
          forall f, In f (factors_of r) -> isFactorFor method f = false)
      /\ (method <> "authenticator" -> method <> "sms" -> answer = None).
Proof.
  intros sb method r L. eexists. split; [exact (getFactorIdForMethod_run sb method r L)|].
  split; [|split].
  - intros i E.
    destruct (find (isFactorFor method) (factors_of r)) as [f|] eqn:F;
      [|discriminate].
    injection E as <-. apply find_some_in in F as [Hin Hf].
    apply isFactorFor_true in Hf as [S K]. exists f. auto.
  - split.
    + intros E f Hin.
      destruct (find (isFactorFor method) (factors_of r)) as [g|] eqn:F;
        [discriminate|].
      exact (List.find_none _ _ F f Hin).
    + intros N.
      destruct (find (isFactorFor method) (factors_of r)) as [g|] eqn:F;
        [|reflexivity].
      apply find_some_in in F as [Hin Hg]. rewrite (N g Hin) in Hg.
      discriminate.
  - intros Na Ns.
    destruct (find (isFactorFor method) (factors_of r)) as [g|] eqn:F;
      [|reflexivity].
    apply find_some_in in F as [_ Hg].
    apply isFactorFor_true in Hg as [_ [[_ K]|[_ K]]]; congruence.
Qed.

(** X5 on the sample user. *)
Lemma getFactorIdForMethod_witness :
  exists answer,
    getFactorIdForMethod sample_client "sms"
    = ([Eff.Provider "auth.mfa.listFactors"], Eff.Returned answer)
    /\ (answer = None <->
        forall f, In f (factors_of sample_listing) ->
                  isFactorFor "sms" f = false).
Proof.
  destruct (getFactorIdForMethod_spec sample_client "sms" sample_listing
              eq_refl) as (answer & R & _ & N & _).
  exists answer. split; assumption.
Defined.


(** The first verified entry of one kind, read off the [all] list. *)
Lemma first_verified_of_kind (p : MfaFactor -> bool) (l : list MfaFactor) :
  firstn 1 (filter isVerified (map plain (filter p l)))
  = match find (fun f => String.eqb (mf_status f) "verified" && p f) l with
    | Some f => [plain f]
    | None => []
    end.
Proof.
  unfold find. induction l as [|f l IH]; [reflexivity|].
  cbn [filter List.find].
  destruct (p f) eqn:P.
  - cbn [map filter]. unfold isVerified at 1. cbn [plain status].
    destruct (String.eqb (mf_status f) "verified"); cbn [andb].
    + reflexivity.
    + exact IH.
  - rewrite andb_false_r. exact IH.
Qed.

Lemma find_ext {A} (p q : A -> bool) (l : list A) :
  (forall x, p x = q x) -> find p l = find q l.
Proof.
  intros H. unfold find. induction l as [|x l IH]; simpl; [reflexivity|].
  now rewrite H, IH.
Qed.

Lemma available_are_collected (cfg : TAuthConfig) (sb : SupabaseClient)
    (r : Response FactorsData) (req : TwoFactorRequirement)
    (ms : list TMethod) :
  mfa_listFactors sb = Eff.Returned r ->
  Eff.result (checkTwoFactorRequirements cfg sb) = Eff.Returned req ->
  availableMethods req = Some ms ->
  ms = collectMethods (data r).
Proof.
  intros T R Ms.
  destruct (check_cases cfg sb)
    as [[_ E]|[[_ (x & _ & E)]|[[_ (r' & e & _ & _ & E)]|[_ (r' & T' & _ & E)]]]];
    rewrite E in R; unfold Eff.result, snd in R; try discriminate.
  - injection R as <-. discriminate.
  - assert (r' = r) by congruence. subst r'.
    destruct (verified_of (totp_of (data r)));
      [destruct (verified_of (phone_of (data r)))|];
      injection R as <-; unfold required, notRequired in Ms; cbn in Ms;
      congruence.
Qed.

(** X6: when the lists by kind of a listing are the split of its [all] list
    by type, every method [checkTwoFactorRequirements] offers is found again
    by [getFactorIdForMethod], under the same factor id. *)
Theorem lookup_agrees_with_requirement :
  forall (cfg : TAuthConfig) (sb : MfaClient) (r : Response ListFactorsData)
         (d : ListFactorsData) (req : TwoFactorRequirement)
         (ms : list TMethod) (m : TMethod),
    listFactors sb = Eff.Returned r -> data r = Some d -> kinds_agree d ->
    Eff.result (checkTwoFactorRequirements cfg (as_SupabaseClient sb))
    = Eff.Returned req ->
    availableMethods req = Some ms -> In m ms ->
    Eff.result (getFactorIdForMethod sb (method_type m))
    = Eff.Returned (Some (method_factorId m)).
Proof.
  intros cfg sb r d req ms m L D (l & A & T & P) R Ms Hin.
  rewrite (getFactorIdForMethod_run sb _ r L). unfold Eff.result, snd.
  assert (F : factors_of r = l) by (unfold factors_of; now rewrite D, A).
  rewrite F.
  assert (Lb : mfa_listFactors (as_SupabaseClient sb)
               = Eff.Returned (listing_by_kind r))
    by (unfold as_SupabaseClient; cbn; now rewrite L).
  assert (Ms' : ms = collectMethods (data (listing_by_kind r)))
    by exact (available_are_collected cfg _ _ req ms Lb R Ms).
  subst ms. rewrite collectMethods_spec in Hin.
  unfold listing_by_kind in Hin. cbn [data] in Hin. rewrite D in Hin.
  cbn [option_map] in Hin. unfold totp_of, phone_of in Hin.
  rewrite T, P in Hin. unfold verified_of in Hin.
  rewrite !first_verified_of_kind in Hin.
  apply in_app_iff in Hin as [Hin|Hin].
  - destruct (find _ l) as [f|] eqn:Ff in Hin; [|destruct Hin].
    destruct Hin as [<-|[]]. cbn [method method_type method_factorId plain id].
    erewrite find_ext; [rewrite Ff; reflexivity|].
    intros x. unfold isFactorFor, of_type_totp.
    destruct (String.eqb (factor_type x) "totp"); reflexivity.
  - destruct (find _ l) as [f|] eqn:Ff in Hin; [|destruct Hin].
    destruct Hin as [<-|[]]. cbn [method method_type method_factorId plain id].
    erewrite find_ext; [rewrite Ff; reflexivity|].
    intros x. unfold isFactorFor, of_type_totp.
    destruct (String.eqb (factor_type x) "totp"); reflexivity.
Qed.

(** X6 on the phone of the sample user. *)
Lemma lookup_agrees_witness :
  kinds_agree sample_factors
  /\ Eff.result (getFactorIdForMethod sample_client "sms")
     = Eff.Returned (Some "sms-1").
Proof.
  assert (K : kinds_agree sample_factors).
  { eexists. split; [reflexivity|]. split; reflexivity. }
  split; [exact K|].
  refine (lookup_agrees_with_requirement config_on sample_client
            sample_listing sample_factors _ _ (method "sms" mobile)
            eq_refl eq_refl K eq_refl eq_refl _).
  right. left. reflexivity.
Defined.


End MfaFacts.

(* ================================================================== *)
(** * Validators: what is accepted and which message is given *)
(* ================================================================== *)

Section ValidationMore.

Import AuthValidation Schemas.

Lemma issues_string (schema : ZodString) (s : string) :
  issues_of schema (JString s)
  = map msg_of (filter (fun c => negb (passes c s)) schema).
Proof. reflexivity. Qed.

Lemma hd_filter_find {A} (p : A -> bool) (l : list A) :
  hd_error (filter p l) = List.find p l.
Proof.
  induction l as [|x l IH]; simpl; [reflexivity|].
  destruct (p x); [reflexivity | exact IH].
Qed.

Lemma error_string (schema : ZodString) (s : string) :
  error (validation_of (safeParse schema (JString s)))
  = option_map msg_of (List.find (fun c => negb (passes c s)) schema).
Proof.
  unfold validation_of, safeParse. rewrite issues_string.
  rewrite <- hd_filter_find.
  destruct (filter (fun c => negb (passes c s)) schema); reflexivity.
Qed.

Lemma validation_consistent (schema : ZodString) (v : json) :
  isValid (validation_of (safeParse schema v)) = true
  <-> error (validation_of (safeParse schema v)) = None.
Proof.
  unfold validation_of, safeParse.
  destruct (issues_of schema v) as [|m ms] eqn:I; simpl.
  - tauto.
  - split; discriminate.
Qed.

(** X7: for every string schema, a value is valid exactly when no error is
    reported; a string is valid exactly when it passes every check, and the
    error reported is the message of the first check it fails, in schema
    order; a value that is not a string is never valid. *)
Theorem string_validation :
  forall (schema : ZodString),
    (forall v, isValid (validation_of (safeParse schema v)) = true
               <-> error (validation_of (safeParse schema v)) = None)
    /\ (forall s,
          isValid (validation_of (safeParse schema (JString s)))
          = forallb (fun c => passes c s) schema
          /\ error (validation_of (safeParse schema (JString s)))
             = option_map msg_of
                 (List.find (fun c => negb (passes c s)) schema))
    /\ (forall v, is_string v = false ->
          isValid (validation_of (safeParse schema v)) = false).
Proof.
  intros schema. split; [|split].
  - apply validation_consistent.
  - intros s. split; [apply isValid_string | apply error_string].
  - intros [|s|ty] H; try discriminate; reflexivity.
Qed.

(** X7 on a number handed to the phone schema. *)
Lemma string_validation_witness :
  isValid (validation_of (safeParse phoneSchema (JOther "number"))) = false.
Proof.
  exact (proj2 (proj2 (string_validation phoneSchema)) (JOther "number")
           eq_refl).
Defined.


Lemma length_nonneg (s : string) : 0 <= Js.length s.
Proof. unfold Js.length. lia. Qed.

Lemma validatePassword_facts :
  forall s : string,
    let v := validatePassword (JString s) in
    (isValid v = true <-> 8 <= Js.length s <= 72)
    /\ (Js.length s < 8 ->
        error v = Some "Password must be at least 8 characters")
    /\ (72 < Js.length s ->
        error v = Some "Password cannot exceed 72 characters").
Proof.
  intros s v. subst v. unfold validatePassword.
  rewrite isValid_string, error_string. cbn [passwordSchema forallb List.find passes].
  destruct (Z.leb_spec 8 (Js.length s)) as [A|A];
    destruct (Z.leb_spec (Js.length s) 72) as [B|B]; cbn;
    repeat split; intros; try reflexivity; try discriminate; try lia.
Qed.

(** X8: [validatePassword] accepts exactly the strings of 8 to 72
    characters; a shorter one is told "at least 8 characters", a longer one
    "cannot exceed 72 characters". *)
Theorem validatePassword_spec :
  forall s : string,
    let v := validatePassword (JString s) in
    (isValid v = true <-> 8 <= Js.length s <= 72)
    /\ (Js.length s < 8 ->
        error v = Some "Password must be at least 8 characters")
    /\ (72 < Js.length s ->
        error v = Some "Password cannot exceed 72 characters").
Proof. exact validatePassword_facts. Qed.

(** X8 on a five-letter password. *)
Lemma validatePassword_witness :
  error (validatePassword (JString "short"))
  = Some "Password must be at least 8 characters".
Proof.
  refine (proj1 (proj2 (validatePassword_spec "short")) _).
  vm_compute. reflexivity.
Defined.


Lemma validateEmail_facts :
  forall (zod_email : string -> bool) (s : string),
    let v := validateEmail zod_email (JString s) in
    (isValid v = true <-> 1 <= Js.length s <= 255 /\ zod_email s = true)
    /\ (s = "" -> error v = Some "Email is required")
    /\ (255 < Js.length s -> error v = Some "Email is too long")
    /\ (1 <= Js.length s <= 255 -> zod_email s = false ->
        error v = Some "Invalid email format").
Proof.
  intros zod_email s v. subst v. unfold validateEmail.
  rewrite isValid_string, error_string.
  cbn [emailSchema forallb List.find passes].
  split; [|split; [|split]].
  - rewrite andb_true_r, !andb_true_iff, !Z.leb_le. tauto.
  - intros ->. reflexivity.
  - intros H. destruct (Z.leb_spec 1 (Js.length s)); [|lia].
    destruct (Z.leb_spec (Js.length s) 255); [lia|]. reflexivity.
  - intros [A B] E. destruct (Z.leb_spec 1 (Js.length s)); [|lia].
    destruct (Z.leb_spec (Js.length s) 255); [|lia]. rewrite E. reflexivity.
Qed.

(** X9: [validateEmail] accepts exactly the strings of 1 to 255 characters
    that have zod's e-mail shape; the empty string is told "Email is
    required", a string over 255 characters "Email is too long" whatever
    its shape, and any other rejected string "Invalid email format". *)
Theorem validateEmail_spec :
  forall (zod_email : string -> bool) (s : string),
    let v := validateEmail zod_email (JString s) in
    (isValid v = true <-> 1 <= Js.length s <= 255 /\ zod_email s = true)
    /\ (s = "" -> error v = Some "Email is required")
    /\ (255 < Js.length s -> error v = Some "Email is too long")
    /\ (1 <= Js.length s <= 255 -> zod_email s = false ->
        error v = Some "Invalid email format").
Proof. exact validateEmail_facts. Qed.

(** X9 on the empty string, for a shape test that rejects everything. *)
Lemma validateEmail_witness :
  error (validateEmail (fun _ => false) (JString ""))
  = Some "Email is required".
Proof.
  exact (proj1 (proj2 (validateEmail_spec (fun _ => false) "")) eq_refl).
Defined.


Lemma Matches_star_class (p : ascii -> bool) (s : string) :
  Regex.Matches (Regex.Star (Regex.Class p)) s <-> Js.every p s = true.
Proof.
  split.
  - remember (Regex.Star (Regex.Class p)) as r eqn:R. intros M.
    induction M as [|q c H|a b s1 s2 _ _ _ _|a b s0 _ _|a b s0 _ _|a
                    |a s1 s2 M1 _ M2 IH2]; try discriminate.
    + reflexivity.
    + injection R as ->. apply Matches_Class in M1 as (c & -> & P).
      simpl. now rewrite P, IH2.
  - induction s as [|c s IH]; simpl; intros H.
    + constructor.
    + apply andb_true_iff in H as [P E].
      change (String c s) with (String c "" ++ s).
      constructor; [now constructor | auto].
Qed.

Lemma codePattern_spec (s : string) :
  Regex.test codePattern s = true
  <-> s <> "" /\ Reference.all_digits s = true.
Proof.
  rewrite test_Matches. unfold codePattern, Regex.plus. rewrite Matches_Cat.
  split.
  - intros (s1 & s2 & -> & M1 & M2).
    apply Matches_Class in M1 as (c & -> & P).
    apply Matches_star_class in M2. split; [discriminate|].
    unfold Reference.all_digits. simpl.
    change (Reference.is_digit c) with
      ((nat_of_ascii "0" <=? nat_of_ascii c)%nat
       && (nat_of_ascii c <=? nat_of_ascii "9")%nat).
    now rewrite P.
  - intros [N E]. destruct s as [|c s]; [congruence|].
    unfold Reference.all_digits in E. simpl in E.
    apply andb_true_iff in E as [P E].
    exists (String c ""), s. repeat split.
    + apply Matches_Class. exists c. split; [reflexivity | exact P].
    + now apply Matches_star_class.
Qed.

(** X10: [validateTwoFactorCode] accepts exactly the strings of six digits;
    a string of another length is told "Code must be 6 digits", and a
    six-character string with a non-digit "Code must contain only
    numbers". *)
Theorem validateTwoFactorCode_spec :
  forall s : string,
    let v := validateTwoFactorCode (JString s) in
    (isValid v = true
     <-> String.length s = 6%nat /\ Reference.all_digits s = true)
    /\ (String.length s <> 6%nat -> error v = Some "Code must be 6 digits")
    /\ (String.length s = 6%nat -> Reference.all_digits s = false ->
        error v = Some "Code must contain only numbers").
Proof.
  intros s v. subst v. unfold validateTwoFactorCode.
  rewrite isValid_string, error_string.
  cbn [codeSchema forallb List.find passes]. unfold Js.length.
  split; [|split].
  - rewrite andb_true_r, !andb_true_iff, !Z.leb_le, codePattern_spec.
    split.
    + intros (A & B & _ & D). split; [lia | exact D].
    + intros [L D]. repeat split; try lia; [|exact D].
      intros ->. discriminate.
  - intros N.
    destruct (Z.leb_spec 6 (Z.of_nat (String.length s))); [|reflexivity].
    destruct (Z.leb_spec (Z.of_nat (String.length s)) 6); [lia|]. reflexivity.
  - intros L D. rewrite L. cbn.
    destruct (Regex.test codePattern s) eqn:T; [|reflexivity].
    apply codePattern_spec in T as [_ T]. congruence.
Qed.

(** X10 on a code with a letter. *)
Lemma validateTwoFactorCode_witness :
  error (validateTwoFactorCode (JString "12a456"))
  = Some "Code must contain only numbers".
Proof.
  exact (proj2 (proj2 (validateTwoFactorCode_spec "12a456")) eq_refl eq_refl).
Defined.


Lemma issues_nil_valid (schema : ZodString) (v : json) :
  issues_of schema v = []
  <-> isValid (validation_of (safeParse schema v)) = true.
Proof.
  unfold validation_of, safeParse.
  destruct (issues_of schema v); simpl; split; congruence.
Qed.

Lemma error_hd_issues (schema : ZodString) (v : json) :
  error (validation_of (safeParse schema v)) = hd_error (issues_of schema v).
Proof.
  unfold validation_of, safeParse.
  destruct (issues_of schema v); reflexivity.
Qed.

(** No message of the two form schemas is the empty string. *)
Lemma form_messages_nonempty (zod_email : string -> bool) (e p : json) :
  Forall (fun m => m <> "")
    (issues_of (emailSchema zod_email) e ++ issues_of passwordSchema p).
Proof.
  apply Forall_app. split.
  - destruct e as [|s|ty]; cbn [issues_of].
    + repeat constructor; discriminate.
    + apply Forall_map, Forall_forall. intros c Hc.
      apply filter_In in Hc as [Hc _]. cbn in Hc.
      intuition (subst; discriminate).
    + repeat constructor; discriminate.
  - destruct p as [|s|ty]; cbn [issues_of].
    + repeat constructor; discriminate.
    + apply Forall_map, Forall_forall. intros c Hc.
      apply filter_In in Hc as [Hc _]. cbn in Hc.
      intuition (subst; discriminate).
    + repeat constructor; discriminate.
Qed.

Lemma validateFormData_object (zod_email : string -> bool) (e p : json) :
  validateFormData zod_email (BodyObject e p)
  = match (issues_of (emailSchema zod_email) e
           ++ issues_of passwordSchema p)%list with
    | [] => {| fd_error := None;
               fd_data := Some {| as_email := e; as_password := p |} |}
    | m :: _ => {| fd_error := Some m; fd_data := None |}
    end.
Proof.
  pose proof (form_messages_nonempty zod_email e p) as NE.
  unfold validateFormData, authSchema_safeParse.
  destruct (issues_of (emailSchema zod_email) e
            ++ issues_of passwordSchema p)%list as [|m ms]; [reflexivity|].
  inversion NE as [|? ? Hm _]; subst. cbn [hd_error].
  apply String.eqb_neq in Hm. now rewrite Hm.
Qed.

Lemma validateFormData_facts :
  forall (zod_email : string -> bool) (b : body),
    let r := validateFormData zod_email b in
    (fd_error r = None <-> fd_data r <> None)
    /\ (forall m, fd_error r = Some m -> m <> "")
    /\ (forall d, fd_data r = Some d ->
          b = BodyObject (as_email d) (as_password d)
          /\ isValid (validateEmail zod_email (as_email d)) = true
          /\ isValid (validatePassword (as_password d)) = true)
    /\ (forall e p, b = BodyObject e p ->
          isValid (validateEmail zod_email e) = false ->
          fd_error r = error (validateEmail zod_email e))
    /\ (forall e p, b = BodyObject e p ->
          isValid (validateEmail zod_email e) = true ->
          fd_error r = error (validatePassword p)).
Proof.
  intros zod_email b r. subst r.
  destruct b as [e p| |ty].
  - rewrite validateFormData_object.
    pose proof (form_messages_nonempty zod_email e p) as NE.
    pose proof (issues_nil_valid (emailSchema zod_email) e) as Ve.
    pose proof (issues_nil_valid passwordSchema p) as Vp.
    pose proof (error_hd_issues (emailSchema zod_email) e) as Ee.
    pose proof (error_hd_issues passwordSchema p) as Ep.
    fold (validateEmail zod_email e) in Ve, Ee.
    fold (validatePassword p) in Vp, Ep.
    destruct (issues_of (emailSchema zod_email) e) as [|m ms];
      [destruct (issues_of passwordSchema p) as [|m ms]|];
      cbn [app hd_error fd_error fd_data] in *.
    + split; [split; congruence|]. split; [congruence|].
      split; [|split].
      * intros d [= <-]. cbn. split; [reflexivity|].
        split; [now apply Ve | now apply Vp].
      * intros e' p' [= <- <-] H. rewrite (proj1 Ve eq_refl) in H.
        discriminate.
      * intros e' p' [= <- <-] _. now rewrite Ep.
    + inversion NE as [|? ? Hm _]; subst.
      split; [split; [discriminate | intros H; now contradiction H]|].
      split; [intros m' [= <-]; exact Hm|].
      split; [discriminate|]. split.
      * intros e' p' [= <- <-] H. rewrite (proj1 Ve eq_refl) in H.
        discriminate.
      * intros e' p' [= <- <-] _. now rewrite Ep.
    + inversion NE as [|? ? Hm _]; subst.
      split; [split; [discriminate | intros H; now contradiction H]|].
      split; [intros m' [= <-]; exact Hm|].
      split; [discriminate|]. split.
      * intros e' p' [= <- <-] _. now rewrite Ee.
      * intros e' p' [= <- <-] H. apply Ve in H. discriminate.
  - cbn. split; [split; [discriminate | intros H; now contradiction H]|].
    split; [intros m [= <-]; discriminate|].
    repeat split; discriminate.
  - cbn. split; [split; [discriminate | intros H; now contradiction H]|].
    split; [intros m [= <-]; discriminate|].
    repeat split; discriminate.
Qed.

(** X11: [validateFormData] returns either an error or the data, never both
    and never neither; the error is never the empty string; the data are
    the two fields of the body, both valid; and an invalid e-mail is
    reported before anything about the password. *)
Theorem validateFormData_spec :
  forall (zod_email : string -> bool) (b : body),
    let r := validateFormData zod_email b in
    (fd_error r = None <-> fd_data r <> None)
    /\ (forall m, fd_error r = Some m -> m <> "")
    /\ (forall d, fd_data r = Some d ->
          b = BodyObject (as_email d) (as_password d)
          /\ isValid (validateEmail zod_email (as_email d)) = true
          /\ isValid (validatePassword (as_password d)) = true)
    /\ (forall e p, b = BodyObject e p ->
          isValid (validateEmail zod_email e) = false ->
          fd_error r = error (validateEmail zod_email e))
    /\ (forall e p, b = BodyObject e p ->
          isValid (validateEmail zod_email e) = true ->
          fd_error r = error (validatePassword p)).
Proof. exact validateFormData_facts. Qed.

(** X11 on a body with an empty e-mail and a short password. *)
Lemma validateFormData_witness :
  fd_error (validateFormData (fun _ => false)
              (BodyObject (JString "") (JString "short")))
  = Some "Email is required".
Proof.
  exact (proj1 (proj2 (proj2 (proj2
           (validateFormData_spec (fun _ => false)
              (BodyObject (JString "") (JString "short"))))))
           (JString "") (JString "short") eq_refl eq_refl).
Defined.


Lemma passwordChange_accepted :
  forall (b : change_body) (d : PasswordChangeSchema),
    passwordChangeSchema_safeParse b = success d
    <-> b = ChangeObject (JString (currentPassword d))
              (JString (newPassword d)) (JString (confirmPassword d))
        /\ 1 <= Js.length (currentPassword d)
        /\ 8 <= Js.length (newPassword d) <= 72
        /\ newPassword d = confirmPassword d.
Proof.
  intros b d. unfold passwordChangeSchema_safeParse. split.
  - destruct b as [[|c|?] [|n|?] [|f|?]| |]; try discriminate.
    cbn [issues_of currentPasswordSchema passwordSchema filter map passes].
    destruct (Z.leb_spec 1 (Js.length c)); cbn; try discriminate.
    destruct (Z.leb_spec 8 (Js.length n)); cbn; try discriminate.
    destruct (Z.leb_spec (Js.length n) 72); cbn; try discriminate.
    destruct (String.eqb_spec n f); cbn; try discriminate.
    intros [= <-]. cbn. repeat split; auto.
  - destruct d as [c n f]. cbn. intros (-> & A & [B C] & <-).
    cbn [issues_of currentPasswordSchema passwordSchema filter map passes].
    apply Z.leb_le in A, B, C. rewrite A, B, C. cbn.
    now rewrite String.eqb_refl.
Qed.

(** X12: [passwordChangeSchema] accepts exactly the objects whose three
    fields are strings with a non-empty current password, a new password of
    8 to 72 characters and a confirmation equal to the new password, and
    hands these three strings on. *)
Theorem passwordChange_accepts :
  forall (b : change_body) (d : PasswordChangeSchema),
    passwordChangeSchema_safeParse b = success d
    <-> b = ChangeObject (JString (currentPassword d))
              (JString (newPassword d)) (JString (confirmPassword d))
        /\ 1 <= Js.length (currentPassword d)
        /\ 8 <= Js.length (newPassword d) <= 72
        /\ newPassword d = confirmPassword d.
Proof. exact passwordChange_accepted. Qed.

(** X13: when the three fields are fine and the confirmation differs from
    the new password, the only issue is "Passwords don't match". *)
Theorem passwordChange_mismatch :
  forall c n f : string,
    1 <= Js.length c -> 8 <= Js.length n <= 72 -> n <> f ->
    passwordChangeSchema_safeParse
      (ChangeObject (JString c) (JString n) (JString f))
    = failure ["Passwords don't match"].
Proof.
  intros c n f A [B C] N. unfold passwordChangeSchema_safeParse.
  cbn [issues_of currentPasswordSchema passwordSchema filter map passes].
  apply Z.leb_le in A, B, C. rewrite A, B, C. cbn.
  apply String.eqb_neq in N. now rewrite N.
Qed.

(** X13 on a mistyped confirmation. *)
Lemma passwordChange_mismatch_witness :
  passwordChangeSchema_safeParse
    (ChangeObject (JString "old password") (JString "new password")
       (JString "new passwodr"))
  = failure ["Passwords don't match"].
Proof.
  refine (passwordChange_mismatch "old password" "new password" "new passwodr"
            _ _ _).
  - vm_compute. discriminate.
  - split; vm_compute; discriminate.
  - discriminate.
Defined.


End ValidationMore.

(* ================================================================== *)
(** * Route handlers: what reaches the provider *)
(* ================================================================== *)

Section RouteMore.

Import AuthValidation Schemas Routes Requests ChangePassword.

Ltac plain_scrutinee x :=
  lazymatch x with
  | context [@Eff.Returned] => fail
  | context [@Eff.Thrown] => fail
  | context [@pair] => fail
  | _ => idtac
  end.

Ltac reduce_handler :=
  cbn -[or_else passwordChangeSchema_safeParse hasPasswordAuth validateEmail
        validateFormData noIdentities Js.truthy String.append].

Ltac walk_step :=
  match goal with
  | |- context [match ?x with Eff.Returned _ => _ | Eff.Thrown _ => _ end] =>
      plain_scrutinee x; destruct x eqn:?
  | |- context [match ?x with Some _ => _ | None => _ end] =>
      plain_scrutinee x; destruct x eqn:?
  | |- context [match ?x with success _ => _ | failure _ => _ end] =>
      plain_scrutinee x; destruct x eqn:?
  | |- context [match ?x with
                | BodyObject _ _ => _ | BodyNull => _ | BodyOther _ => _
                end] =>
      plain_scrutinee x; destruct x eqn:?
  | |- context [if ?x then _ else _] =>
      plain_scrutinee x; destruct x eqn:?
  end; reduce_handler.

(** Every path of a handler. *)
Ltac walk :=
  unfold changePassword_POST, forgotPassword_POST, signup_POST,
    destructure_email, limit, Eff.await, Eff.try_catch, Eff.bind, Eff.emit,
    Eff.ret, Eff.throw, Eff.trace, Eff.result;
  reduce_handler; repeat walk_step.

Lemma change_always_responds
    (apiRateLimit : option (string -> Eff.outcome bool))
    (createClient : Eff.outcome AccountClient)
    (AUTH_CONFIG : Auth.TAuthConfig) (request : ChangeRequest) :
  exists response,
    Eff.result (changePassword_POST apiRateLimit createClient AUTH_CONFIG request)
    = Eff.Returned response
    /\ In (status response) [200; 400; 401; 429; 500].
Proof.
  walk.
  all: eexists; split; [reflexivity|]; cbn; auto 10.
Qed.

Lemma forgot_always_responds (zod_email : string -> bool)
    (authRateLimit : option (string -> Eff.outcome bool))
    (getClientIp : Request -> string)
    (createClient : Eff.outcome ServerClient) (request : Request) :
  exists response,
    Eff.result (forgotPassword_POST zod_email authRateLimit getClientIp
                  createClient request)
    = Eff.Returned response
    /\ In (status response) [200; 400; 429; 500].
Proof.
  walk.
  all: eexists; split; [reflexivity|]; cbn; auto 10.
Qed.

Lemma signup_always_responds (zod_email : string -> bool)
    (authRateLimit : option (string -> Eff.outcome bool))
    (createClient : Eff.outcome ServerClient)
    (AUTH_CONFIG : Auth.TAuthConfig) (request : Request) :
  exists response,
    Eff.result (signup_POST zod_email authRateLimit createClient AUTH_CONFIG
                  request)
    = Eff.Returned response
    /\ In (status response) [200; 400; 429; 500].
Proof.
  walk.
  all: eexists; split; [reflexivity|]; cbn; auto 10.
Qed.


(** X14: the three handlers never throw: each answers with a response whose
    status is 200, 400, 429 or 500, or 401 for the change-password
    handler. *)
Theorem handlers_always_respond :
  forall (zod_email : string -> bool)
         (authRateLimit : option (string -> Eff.outcome bool))
         (getClientIp : Request -> string)
         (createClient : Eff.outcome ServerClient)
         (createAccountClient : Eff.outcome AccountClient)
         (AUTH_CONFIG : Auth.TAuthConfig)
         (request : Request) (change : ChangeRequest),
    (exists response,
        Eff.result (forgotPassword_POST zod_email authRateLimit getClientIp
                      createClient request)
        = Eff.Returned response
        /\ In (status response) [200; 400; 429; 500])
    /\ (exists response,
          Eff.result (signup_POST zod_email authRateLimit createClient
                        AUTH_CONFIG request)
          = Eff.Returned response
          /\ In (status response) [200; 400; 429; 500])
    /\ (exists response,
          Eff.result (changePassword_POST authRateLimit createAccountClient
                        AUTH_CONFIG change)
          = Eff.Returned response
          /\ In (status response) [200; 400; 401; 429; 500]).
Proof.
  intros. split; [|split].
  - apply forgot_always_responds.
  - apply signup_always_responds.
  - apply change_always_responds.
Qed.

Ltac not_reached' :=
  let H := fresh in intros H; exfalso; cbn in H; intuition congruence.

Ltac passed :=
  intros _;
  match goal with
  | H : negb ?a = false |- Eff.Returned ?a = Eff.Returned true =>
      destruct a; [reflexivity | discriminate H]
  end.

(** X15: with a limiter in place (and, for sign-up and change-password,
    rate limiting enabled in the configuration) no provider call is made
    unless the limiter let the request through; a refused forgot-password
    request is answered 429 after the limiter call alone. *)
Theorem limited_requests_stop :
  forall (zod_email : string -> bool)
         (limiter : string -> Eff.outcome bool)
         (getClientIp : Request -> string)
         (createClient : Eff.outcome ServerClient)
         (createAccountClient : Eff.outcome AccountClient)
         (AUTH_CONFIG : Auth.TAuthConfig)
         (request : Request) (change : ChangeRequest),
    (forall call,
        In (Eff.Provider call)
          (Eff.trace (forgotPassword_POST zod_email (Some limiter) getClientIp
                        createClient request)) ->
        limiter (getClientIp request) = Eff.Returned true)
    /\ (Auth.api_rate_limit_enabled AUTH_CONFIG = true ->
        forall call,
          In (Eff.Provider call)
            (Eff.trace (signup_POST zod_email (Some limiter) createClient
                          AUTH_CONFIG request)) ->
          limiter (match x_forwarded_for request with
                   | Some ip => ip
                   | None => "127.0.0.1"
                   end) = Eff.Returned true)
    /\ (Auth.api_rate_limit_enabled AUTH_CONFIG = true ->
        forall call,
          In (Eff.Provider call)
            (Eff.trace (changePassword_POST (Some limiter) createAccountClient
                          AUTH_CONFIG change)) ->
          limiter (match cr_x_forwarded_for change with
                   | Some ip => ip
                   | None => "127.0.0.1"
                   end) = Eff.Returned true)
    /\ (limiter (getClientIp request) = Eff.Returned false ->
        forgotPassword_POST zod_email (Some limiter) getClientIp createClient
          request
        = ([Eff.RateLimit (getClientIp request)],
           Eff.Returned tooManyRequests)).
Proof.
  intros. split; [|split; [|split]].
  - intros call. walk; first [not_reached' | passed].
  - intros En call. walk; first [discriminate En | not_reached' | passed].
  - intros En call. walk; first [discriminate En | not_reached' | passed].
  - intros L. unfold forgotPassword_POST, limit, Eff.try_catch, Eff.bind,
      Eff.emit, Eff.ret. rewrite L. reflexivity.
Qed.

(** X15 on a limiter that refuses everyone. *)
Lemma limited_requests_witness :
  forgotPassword_POST any_shape (Some (fun _ => Eff.Returned false))
    (fun _ => "203.0.113.7") (Eff.Returned provider_new_address) form
  = ([Eff.RateLimit "203.0.113.7"], Eff.Returned tooManyRequests).
Proof.
  exact (proj2 (proj2 (proj2
           (limited_requests_stop any_shape (fun _ => Eff.Returned false)
              (fun _ => "203.0.113.7") (Eff.Returned provider_new_address)
              (Eff.Returned account_provider) Factors.config_on form
              (change_request "old password"))))
           eq_refl).
Defined.


Lemma valid_email_string (zod_email : string -> bool)
    (e : AuthValidation.json) :
  isValid (validateEmail zod_email e) = true ->
  exists s, e = JString s /\ 1 <= Js.length s <= 255 /\ zod_email s = true.
Proof.
  destruct e as [|s|ty]; try discriminate.
  intros V. exists s. split; [reflexivity|].
  now apply (validateEmail_facts zod_email s).
Qed.

Lemma valid_password_string (p : AuthValidation.json) :
  isValid (validatePassword p) = true ->
  exists s, p = JString s /\ 8 <= Js.length s <= 72.
Proof.
  destruct p as [|s|ty]; try discriminate.
  intros V. exists s. split; [reflexivity|].
  now apply (validatePassword_facts s).
Qed.

(** X16: the reset call is made only for a body whose e-mail is a string of
    1 to 255 characters of e-mail shape, and the sign-up call only for a
    body that has, besides, a password string of 8 to 72 characters. *)
Theorem provider_sees_valid_input :
  forall (zod_email : string -> bool)
         (authRateLimit : option (string -> Eff.outcome bool))
         (getClientIp : Request -> string)
         (createClient : Eff.outcome ServerClient)
         (AUTH_CONFIG : Auth.TAuthConfig) (request : Request),
    (In reset_call
       (Eff.trace (forgotPassword_POST zod_email authRateLimit getClientIp
                     createClient request)) ->
     exists s p,
       json request = Eff.Returned (BodyObject (JString s) p)
       /\ 1 <= Js.length s <= 255 /\ zod_email s = true)
    /\ (In signUp_call
          (Eff.trace (signup_POST zod_email authRateLimit createClient
                        AUTH_CONFIG request)) ->
        exists s p,
          json request = Eff.Returned (BodyObject (JString s) (JString p))
          /\ 1 <= Js.length s <= 255 /\ zod_email s = true
          /\ 8 <= Js.length p <= 72).
Proof.
  intros zod_email authRateLimit getClientIp createClient AUTH_CONFIG request.
  split.
  - unfold reset_call. walk; try not_reached'.
    all: intros _;
      match goal with
      | V : negb (isValid (validateEmail ?z ?e)) = false |- _ =>
          apply negb_false_iff in V;
          destruct (valid_email_string z e V) as (em & E & L & Z)
      end; first [discriminate E | subst; eauto].
  - unfold signUp_call. walk; try not_reached'.
    all: intros _;
      match goal with
      | D : fd_data (validateFormData ?z ?b) = Some ?d |- _ =>
          destruct (validateFormData_facts z b) as (_ & _ & F & _);
          destruct (F d D) as (-> & Ve & Vp);
          destruct (valid_email_string z _ Ve) as (em & Es & L & Z);
          destruct (valid_password_string _ Vp) as (pw & Ep & Lp)
      end; exists em, pw; rewrite <- Es, <- Ep; auto.
Qed.

(** X16 on the sample sign-up request. *)
Lemma provider_sees_valid_input_witness :
  exists s p,
    json form = Eff.Returned (BodyObject (JString s) (JString p))
    /\ 1 <= Js.length s <= 255 /\ any_shape s = true
    /\ 8 <= Js.length p <= 72.
Proof.
  refine (proj2 (provider_sees_valid_input any_shape None
                   (fun _ => "203.0.113.7")
                   (Eff.Returned provider_new_address)
                   Factors.config_on form) _).
  right. left. reflexivity.
Defined.


(** X17: the change-password handler calls [updateUser] only for a signed-in
    user and a body the schema accepts, with a new password of 8 to 72
    characters equal to its confirmation; for a user with password sign-in
    only after [signInWithPassword] accepted the current password, and for
    any other user without that call; the response is then 200, or 500 when
    the update fails. *)
Theorem password_update_is_guarded :
  forall (apiRateLimit : option (string -> Eff.outcome bool))
         (createClient : Eff.outcome AccountClient)
         (AUTH_CONFIG : Auth.TAuthConfig) (request : ChangeRequest),
    let run := changePassword_POST apiRateLimit createClient AUTH_CONFIG
                 request in
    In updateUser_call (Eff.trace run) ->
    exists sb g user b d,
      createClient = Eff.Returned sb
      /\ getUser sb = Eff.Returned g
      /\ gu_error g = None /\ gu_user g = Some user
      /\ cr_json request = Eff.Returned b
      /\ passwordChangeSchema_safeParse b = success d
      /\ 8 <= Js.length (newPassword d) <= 72
      /\ newPassword d = confirmPassword d
      /\ (hasPasswordAuth user = true ->
          In signIn_call (Eff.trace run)
          /\ exists r,
               signInWithPassword sb (user_email user) (currentPassword d)
               = Eff.Returned r
               /\ Auth.error r = None)
      /\ (hasPasswordAuth user = false -> ~ In signIn_call (Eff.trace run))
      /\ match updateUser sb (newPassword d) with
         | Eff.Returned r =>
             Eff.result run
             = Eff.Returned
                 match Auth.error r with
                 | Some _ => json_err "Failed to update password" 500
                 | None => json_ok
                 end
         | Eff.Thrown _ =>
             Eff.result run
             = Eff.Returned (json_err "An unexpected error occurred" 500)
         end.
Proof.
  intros apiRateLimit createClient AUTH_CONFIG request run. subst run.
  unfold updateUser_call, signIn_call.
  walk; try not_reached'.
  all: intros _;
    match goal with
    | P : passwordChangeSchema_safeParse ?b = success ?d |- _ =>
        pose proof (proj1 (passwordChange_accepted b d) P) as (_ & _ & Ln & Eq)
    end.
  all: do 5 eexists; repeat (split; [first [reflexivity | eassumption | lia]|]).
  all: split;
    [intros Hp;
     first [congruence
           |split; [cbn; repeat (first [left; reflexivity | right])
                   |eexists; split; [eassumption | assumption]]]|].
  all: split;
    [intros Hp Hin; first [congruence | cbn in Hin; intuition congruence]|].
  all: repeat match goal with
              | H : ?x = _ |- context [?x] => rewrite H
              end; reflexivity.
Qed.

(** X17 on the sample account and its current password. *)
Lemma password_update_witness :
  In updateUser_call (Eff.trace (change_at "old password"))
  /\ In signIn_call (Eff.trace (change_at "old password")).
Proof.
  assert (U : In updateUser_call (Eff.trace (change_at "old password")))
    by (right; right; right; left; reflexivity).
  split; [exact U|].
  destruct (password_update_is_guarded None (Eff.Returned account_provider)
              Factors.config_on (change_request "old password") U)
    as (sb & g & user & b & d & C & G & Ge & Gu & _ & _ & _ & _ & S & _).
  injection C as <-. injection G as <-. injection Gu as <-.
  exact (proj1 (S eq_refl)).
Defined.


(** X18: a handler answers 200 only after its provider call was made: the
    reset call, the sign-up call, the password update. *)
Theorem success_means_provider_called :
  forall (zod_email : string -> bool)
         (authRateLimit : option (string -> Eff.outcome bool))
         (getClientIp : Request -> string)
         (createClient : Eff.outcome ServerClient)
         (createAccountClient : Eff.outcome AccountClient)
         (AUTH_CONFIG : Auth.TAuthConfig)
         (request : Request) (change : ChangeRequest) (response : NextResponse),
    status response = 200 ->
    (Eff.result (forgotPassword_POST zod_email authRateLimit getClientIp
                   createClient request) = Eff.Returned response ->
     In reset_call
       (Eff.trace (forgotPassword_POST zod_email authRateLimit getClientIp
                     createClient request)))
    /\ (Eff.result (signup_POST zod_email authRateLimit createClient
                      AUTH_CONFIG request) = Eff.Returned response ->
        In signUp_call
          (Eff.trace (signup_POST zod_email authRateLimit createClient
                        AUTH_CONFIG request)))
    /\ (Eff.result (changePassword_POST authRateLimit createAccountClient
                      AUTH_CONFIG change) = Eff.Returned response ->
        In updateUser_call
          (Eff.trace (changePassword_POST authRateLimit createAccountClient
                        AUTH_CONFIG change))).
Proof.
  intros until response. intros S.
  unfold reset_call, signUp_call, updateUser_call.
  split; [|split]; walk;
    intros [= <-]; try discriminate; cbn; auto 10.
Qed.

(** X18 on the sample password change. *)
Lemma success_means_witness :
  In updateUser_call (Eff.trace (change_at "old password")).
Proof.
  exact (proj2 (proj2
           (success_means_provider_called any_shape None
              (fun _ => "203.0.113.7") (Eff.Returned provider_new_address)
              (Eff.Returned account_provider) Factors.config_on form
              (change_request "old password") json_ok eq_refl))
           eq_refl).
Defined.


End RouteMore.

(* ================================================================== *)
(** * Components: sign-out, avatar, theme and the account form *)
(* ================================================================== *)

Section ComponentFacts.

Import AuthValidation Schemas Components.

(** X19: [handleSignOut] clears the store and goes to "/" exactly when the
    fetch did not throw, also when the response is not ok, in which case
    the "Failed to logout" toast is shown first; a toast is shown unless
    the response is ok. *)
Theorem handleSignOut_clears_session :
  forall fetched : Eff.outcome FetchResponse,
    let acts := handleSignOut fetched in
    (In StoreLogout acts <-> exists response, fetched = Eff.Returned response)
    /\ (In (RouterPush "/") acts
        <-> exists response, fetched = Eff.Returned response)
    /\ (forall response,
          fetched = Eff.Returned response -> ok response = false ->
          acts = [Fetch "/api/auth/logout" "POST";
                  ToastError "Failed to logout" "Please try again later";
                  StoreLogout; RouterPush "/"])
    /\ ((exists title description, In (ToastError title description) acts)
        <-> ~ exists response,
                fetched = Eff.Returned response /\ ok response = true).
Proof.
  intros [[[|]]|m]; cbn; (split; [|split; [|split]]).
  all: try (split; [intros H; intuition (try discriminate; eauto)
                   |intros (r & E); try discriminate; auto 6]).
  all: try (intros r [= <-]; cbn; intros; try discriminate; reflexivity).
  all: try (intros r E; discriminate).
  - split.
    + intros (t & d & H). intuition discriminate.
    + intros H. exfalso. apply H. eexists. split; reflexivity.
  - split.
    + intros _ (r & E & O). injection E as <-. discriminate.
    + intros _. do 2 eexists. right. left. reflexivity.
  - split.
    + intros _ (r & E & _). discriminate.
    + intros _. do 2 eexists. right. left. reflexivity.
Qed.

(** X19 on a refused logout. *)
Lemma handleSignOut_witness :
  handleSignOut (Eff.Returned {| ok := false |})
  = [Fetch "/api/auth/logout" "POST";
     ToastError "Failed to logout" "Please try again later";
     StoreLogout; RouterPush "/"].
Proof.
  exact (proj1 (proj2 (proj2
           (handleSignOut_clears_session (Eff.Returned {| ok := false |}))))
           {| ok := false |} eq_refl eq_refl).
Defined.


(** X20: the avatar fallback is always exactly one character: the first
    character of the name, or "U" when there is no user, no name or an
    empty name. *)
Theorem avatarFallback_one_letter :
  forall name : option string,
    String.length (avatarFallback name) = 1%nat
    /\ (forall c rest, name = Some (String c rest) ->
          avatarFallback name = String c "")
    /\ (name = None \/ name = Some "" -> avatarFallback name = "U").
Proof.
  intros [[|c rest]|]; (split; [reflexivity|split]).
  all: try (intros c' rest' E; try discriminate).
  all: try (intros [E|E]; try discriminate; reflexivity).
  injection E as <- <-. reflexivity.
Qed.

(** X20 without a user. *)
Lemma avatarFallback_witness : avatarFallback None = "U".
Proof.
  exact (proj2 (proj2 (avatarFallback_one_letter None)) (or_introl eq_refl)).
Defined.


(** X21: a click on the theme item always sets "light" or "dark" ("dark"
    exactly when the theme was "light"), the label of the item changes with
    it, and the next click sets the other of the two. *)
Theorem theme_click_flips_label :
  forall theme : option string,
    exists t,
      themeOnClick theme = [SetTheme t]
      /\ (t = "light" \/ t = "dark")
      /\ (t = "dark" <-> theme = Some "light")
      /\ themeLabel (Some t) <> themeLabel theme
      /\ themeOnClick (Some t)
         = [SetTheme (if String.eqb t "light" then "dark" else "light")].
Proof.
  intros theme. unfold themeOnClick, themeLabel.
  destruct (Js.strict_eq theme (Some "light")) eqn:E.
  - apply strict_eq_iff in E. subst. exists "dark". cbn.
    repeat split; auto; discriminate.
  - exists "light". cbn. repeat split; auto; try discriminate.
    intros ->. cbn in E. discriminate.
Qed.






End ComponentFacts.
